(** * Attendance backend: chart cache, aggregation and chart endpoints

    A shallow embedding of [attendance/views.py].  The chart cache
    ([get_cached_chart], [save_cached_chart]) is modelled over the content of
    [CHART_CACHE_DIR], a finite map from file names to file contents; the
    aggregation of [DataAnalysisView.get] over the list of employee rows; the
    chart endpoints over an abstract plotting backend whose calls may raise.

    Modelling conventions:
    - [time.time()] is an explicit argument [now], a rational number of
      seconds; the division [time.time() / cache_timeout] is exact (the
      rounding of floating point is not modelled);
    - the cache directory holds regular files only, named by their name
      inside the directory ([os.path.join] with the fixed directory is left
      implicit);
    - Python exceptions are values of [exn]; a computation that touches the
      directory is a function from the directory to an outcome and the
      directory it leaves behind, so that what was done before an exception
      is raised stays done. *)

From Stdlib Require Import QArith Qround.
From Stdlib.Strings Require Import Byte.
From stdpp Require Import gmap strings list fin_maps pretty sorting.

Set Warnings "-clear-no-such-hyp".

Local Open Scope Z_scope.
Local Open Scope string_scope.

(** ** Python runtime: exceptions, outcomes, bytes *)

Module Py.

(** An exception: its class and the text [str(e)] gives. *)
Inductive exn : Type := PyErr (cls msg : string).

Definition str_exn (e : exn) : string :=
  match e with PyErr _ msg => msg end.

Definition ZeroDivisionError : exn :=
  PyErr "ZeroDivisionError" "float division by zero".

Definition FileNotFoundError (path : string) : exn :=
  PyErr "FileNotFoundError" path.

(** The outcome of evaluating an expression: a value or a raised exception. *)
Inductive result (A : Type) : Type :=
| Ok (a : A)
| Raise (e : exn).
Arguments Ok {A} a.
Arguments Raise {A} e.

(** [int(x)] on a float: truncation toward zero. *)
Definition int_of (x : Q) : Z := Z.quot (Qnum x) (Z.pos (Qden x)).

(** [x / d] for a float [x] and an int [d]. *)
Definition truediv (x : Q) (d : Z) : result Q :=
  if decide (d = 0) then Raise ZeroDivisionError
  else Ok (Qdiv x (inject_Z d)).

(** [str(n)] for an int, as in an f-string. *)
Definition str_int (n : Z) : string := pretty n.

(** [s.startswith(p)]. *)
Definition startswith (s p : string) : bool := String.prefix p s.

(** ['%0<width>d' % n] for [0 <= n]. *)
Fixpoint zeros (n : nat) : string :=
  match n with
  | O => ""
  | S n' => "0" +:+ zeros n'
  end.

Definition zero_padded (width : nat) (n : Z) : string :=
  let s := str_int n in zeros (width - String.length s) +:+ s.

End Py.

Import Py.

Abbreviation bytes := (list byte).

(** Truth value of [bytes | None] in a condition. *)
Definition truthy (o : option bytes) : bool :=
  match o with
  | Some (_ :: _) => true
  | _ => false
  end.

(** ** Computations over a mutable state that may raise

    What a computation did to the state before it raised stays done: the
    state comes back with the exception. *)

Module SE.

Definition SE (S A : Type) : Type := S → result A * S.

Definition ret {S A} (a : A) : SE S A := λ s, (Ok a, s).

Definition raise {S A} (e : exn) : SE S A := λ s, (Raise e, s).

Definition bind {S A B} (c : SE S A) (k : A → SE S B) : SE S B :=
  λ s, match c s with
       | (Ok a, s') => k a s'
       | (Raise e, s') => (Raise e, s')
       end.

Definition lift {S A} (r : result A) : SE S A := λ s, (r, s).

(** [try: body] [except Exception as e: handler(e)] *)
Definition try_except {S A} (body : SE S A) (handler : exn → SE S A)
  : SE S A :=
  λ s, match body s with
       | (Ok a, s') => (Ok a, s')
       | (Raise e, s') => handler e s'
       end.

(** [for x in l: body(x)] *)
Fixpoint for_each {S A} (l : list A) (body : A → SE S unit) : SE S unit :=
  match l with
  | [] => ret tt
  | x :: l' => bind (body x) (λ _, for_each l' body)
  end.

End SE.

Import SE.

Declare Scope se_scope.
Delimit Scope se_scope with se.
Notation "'let!' x ':=' c 'in' k" := (bind c (λ x, k))
  (at level 10, x name, c at level 100, k at level 200) : se_scope.
Notation "'run!' c 'in' k" := (bind c (λ _, k))
  (at level 10, c at level 100, k at level 200) : se_scope.
Local Open Scope se_scope.

(** ** The cache directory *)

Module Os.

(** Content of [CHART_CACHE_DIR]: file name to file content. *)
Abbreviation dir := (gmap string bytes).

Abbreviation IO := (SE dir).

(** [os.path.exists(path)] *)
Definition path_exists (path : string) : IO bool :=
  λ fs, (Ok (bool_decide (is_Some (fs !! path))), fs).

(** [open(path, 'rb').read()] *)
Definition read_file (path : string) : IO bytes :=
  λ fs, match fs !! path with
        | Some data => (Ok data, fs)
        | None => (Raise (FileNotFoundError path), fs)
        end.

(** [open(path, 'wb').write(data)]: creates or truncates.  Names are flat
    and the directory is writable: a name that cannot be created there (a
    chart type with a path separator) is outside the model, so nothing
    below says of itself that a store completes for such a name. *)
Definition write_file (path : string) (data : bytes) : IO unit :=
  λ fs, (Ok tt, <[path := data]> fs).

(** [os.listdir(CHART_CACHE_DIR)] *)
Definition listdir : IO (list string) :=
  λ fs, (Ok (map_to_list fs).*1, fs).

(** [os.remove(path)] *)
Definition remove (path : string) : IO unit :=
  λ fs, match fs !! path with
        | Some _ => (Ok tt, delete path fs)
        | None => (Raise (FileNotFoundError path), fs)
        end.

End Os.

Import Os.

(** ** The chart cache *)

(** [int(time.time() / cache_timeout)] *)
Definition bucket (now : Q) (cache_timeout : Z) : result Z :=
  match truediv now cache_timeout with
  | Ok x => Ok (int_of x)
  | Raise e => Raise e
  end.

(** [f'chart_{chart_type}_{int(time.time() / cache_timeout)}'] *)
Definition cache_key (now : Q) (chart_type : string) (cache_timeout : Z)
  : result string :=
  match bucket now cache_timeout with
  | Ok b => Ok ("chart_" +:+ chart_type +:+ "_" +:+ str_int b)
  | Raise e => Raise e
  end.

Definition get_cached_chart (now : Q) (chart_type : string)
    (cache_timeout : Z) : IO (option bytes) :=
  let! cache_key := lift (cache_key now chart_type cache_timeout) in
  let cache_path := cache_key +:+ ".png" in
  let! found := path_exists cache_path in
  if (found : bool) then
    let! data := read_file cache_path in
    ret (Some data)
  else ret None.

(** The test of the clean-up loop of [save_cached_chart]. *)
Definition is_old (chart_type cache_key file : string) : bool :=
  startswith file ("chart_" +:+ chart_type +:+ "_")
  && negb (startswith file cache_key).

Definition save_cached_chart (now : Q) (chart_type : string)
    (image_data : bytes) (cache_timeout : Z) : IO unit :=
  let! cache_key := lift (cache_key now chart_type cache_timeout) in
  let cache_path := cache_key +:+ ".png" in
  let! files := listdir in
  run! for_each files (λ file,
    if is_old chart_type cache_key file then
      try_except (remove file) (λ _, ret tt)
    else ret tt) in
  write_file cache_path image_data.

(** The file that holds the entry of a chart type for a bucket. *)
Definition entry_name (chart_type : string) (b : Z) : string :=
  "chart_" +:+ chart_type +:+ "_" +:+ str_int b +:+ ".png".

(** The entry of a chart type for a bucket, when it is on disk. *)
Definition entry (fs : dir) (chart_type : string) (b : Z) : option bytes :=
  fs !! entry_name chart_type b.

(** A clock reading at a whole number of seconds. *)
Definition at_second (n : Z) : Q := inject_Z n.

(** ** The employee table ([attendance/models.py]) *)

(** [datetime.date] and [datetime.datetime], as their fields. *)
Record date : Type := Date { year : Z; month : Z; day : Z }.

Record datetime : Type := Datetime {
  dt_year : Z; dt_month : Z; dt_day : Z;
  dt_hour : Z; dt_minute : Z; dt_second : Z; dt_microsecond : Z }.

(** [dt.date()] *)
Definition date_of (t : datetime) : date :=
  Date (dt_year t) (dt_month t) (dt_day t).

(** [dt.time()], as hour, minute, second and microsecond. *)
Definition time_of (t : datetime) : Z * Z * Z * Z :=
  (dt_hour t, dt_minute t, dt_second t, dt_microsecond t).

(** [str(d)], the ISO form ['%04d-%02d-%02d'], also what
    [d.strftime('%Y-%m-%d')] gives for a four-digit year. *)
Definition str_date (d : date) : string :=
  zero_padded 4 (year d) +:+ "-" +:+ zero_padded 2 (month d)
  +:+ "-" +:+ zero_padded 2 (day d).

#[global] Instance date_eq_dec : EqDecision date.
Proof. solve_decision. Defined.

(** Order of dates: by year, then month, then day. *)
Definition date_ltb (d1 d2 : date) : bool :=
  ((year d1 <? year d2)
   || ((year d1 =? year d2)
       && ((month d1 <? month d2)
           || ((month d1 =? month d2) && (day d1 <? day d2)))))%Z.

(** A row of [Employee.objects.all().values()]. *)
Record Employee : Type := {
  id : Z;
  first_name : string;
  last_name : string;
  email : string;
  phone_number : string;
  role : string;
  department : string;
  signature : string;
  time_posted : datetime }.

(** ** The pandas operations the views use *)

(** [pd.DataFrame(employees)] over a list of row dictionaries. *)
Record DataFrame : Type := { df_rows : list Employee }.

(** [df.columns]: the keys of the rows; none when there is no row. *)
Definition columns (df : DataFrame) : list string :=
  match df_rows df with
  | [] => []
  | _ :: _ => ["id"; "first_name"; "last_name"; "email"; "phone_number";
               "role"; "department"; "signature"; "time_posted"]
  end.

(** [df.empty] *)
Definition df_empty (df : DataFrame) : bool :=
  match df_rows df with
  | [] => true
  | _ :: _ => false
  end.

(** One more occurrence of [x] in a list of labels with their counts, in
    order of first appearance. *)
Fixpoint bump {A} `{EqDecision A} (x : A) (acc : list (A * nat))
  : list (A * nat) :=
  match acc with
  | [] => [(x, 1%nat)]
  | (y, n) :: acc' =>
      if decide (x = y) then (y, S n) :: acc' else (y, n) :: bump x acc'
  end.

Definition tally {A} `{EqDecision A} (l : list A) : list (A * nat) :=
  foldl (λ acc x, bump x acc) [] l.

Fixpoint insert_desc {A} (p : A * nat) (l : list (A * nat))
  : list (A * nat) :=
  match l with
  | [] => [p]
  | p' :: l' =>
      if (p'.2 <? p.2)%nat then p :: l else p' :: insert_desc p l'
  end.

(** [series.value_counts()]: each distinct label with its number of
    occurrences, most frequent first.  pandas leaves the order among equal
    counts open; here it is the order of first appearance. *)
Definition value_counts (series : list string) : list (string * nat) :=
  foldl (λ acc p, insert_desc p acc) [] (tally series).

Fixpoint insert_by_date (p : date * nat) (l : list (date * nat))
  : list (date * nat) :=
  match l with
  | [] => [p]
  | p' :: l' =>
      if date_ltb p.1 p'.1 then p :: l else p' :: insert_by_date p l'
  end.

(** [df.groupby('date').size()]: each distinct date with its number of
    rows, in increasing order of date. *)
Definition groupby_size (dates : list date) : list (date * nat) :=
  foldl (λ acc p, insert_by_date p acc) [] (tally dates).

(** [series.to_dict()] *)
Definition to_dict (series : list (string * nat)) : gmap string nat :=
  list_to_map series.

(** [{str(date): count for date, count in daily_counts.items()}]: a later
    item overwrites an earlier one under the same key. *)
Definition dict_by_str_date (items : list (date * nat)) : gmap string nat :=
  foldl (λ m p, <[str_date p.1 := p.2]> m) ∅ items.

(** [series.tail(n)] *)
Definition tail {A} (n : nat) (l : list A) : list A :=
  drop (length l - n) l.

(** ** [DataAnalysisView.get] *)

Inductive json : Type :=
| JInt (n : Z)
| JStr (s : string)
| JCounts (m : gmap string nat).

(** [rest_framework.response.Response(data)]: status 200 unless given. *)
Record Response : Type := { data : list (string * json); status : Z }.

Definition Response_ (d : list (string * json)) : Response :=
  {| data := d; status := 200 |}.

(** [data[key]], when the key is there. *)
Fixpoint field (key : string) (d : list (string * json)) : option json :=
  match d with
  | [] => None
  | (k, v) :: d' => if decide (k = key) then Some v else field key d'
  end.

Definition DataAnalysisView_get (employees : list Employee) : Response :=
  match employees with
  | [] =>
      Response_ [("total_records", JInt 0);
                 ("message", JStr "No data available")]
  | _ :: _ =>
      let df := {| df_rows := employees |} in
      let total_records := Z.of_nat (length (df_rows df)) in
      let checkin_vs_checkout :=
        if bool_decide ("signature" ∈ columns df)
        then to_dict (value_counts (signature <$> df_rows df)) else ∅ in
      let department_distribution :=
        if bool_decide ("department" ∈ columns df)
        then to_dict (value_counts (department <$> df_rows df)) else ∅ in
      let role_distribution :=
        if bool_decide ("role" ∈ columns df)
        then to_dict (value_counts (role <$> df_rows df)) else ∅ in
      let daily_attendance :=
        if bool_decide ("time_posted" ∈ columns df)
        then
          let dates := (λ r, date_of (time_posted r)) <$> df_rows df in
          let daily_counts := groupby_size dates in
          dict_by_str_date daily_counts
        else ∅ in
      Response_ [("total_records", JInt total_records);
                 ("checkin_vs_checkout", JCounts checkin_vs_checkout);
                 ("department_distribution", JCounts department_distribution);
                 ("role_distribution", JCounts role_distribution);
                 ("daily_attendance", JCounts daily_attendance)]
  end.

(** The distributions of the analysis response. *)
Definition distributions : list string :=
  ["checkin_vs_checkout"; "department_distribution"; "role_distribution";
   "daily_attendance"].

(** ** The plotting backend

    matplotlib is an external collaborator: a figure is the log of the calls
    made on it, any call may raise, and [savefig] encodes the figure as bytes
    or raises.  Styling keywords (font sizes, colours, angles) are left out of
    the log. *)

Inductive arg : Type :=
| Str (s : string)
| Num (n : Z)
| Counts (l : list (string * nat))
| Labels (l : list string).

(** A call on [plt] ([target = None]) or on the axes [axs[i, j]]. *)
Record call : Type := Call {
  target : option (Z * Z);
  name : string;
  args : list arg }.

Abbreviation figure := (list call).

Record backend : Type := {
  raises : figure → call → option exn;
  encode : list arg → figure → result bytes }.

(** A computation over the current figure. *)
Abbreviation Plot := (SE figure).

Definition draw (B : backend) (c : call) : Plot unit :=
  λ fig, match raises B fig c with
         | Some e => (Raise e, fig)
         | None => (Ok tt, (fig ++ [c])%list)
         end.

(** [plt.<name>(args)] on the current figure. *)
Definition plt (B : backend) (name : string) (args : list arg) : Plot unit :=
  draw B (Call None name args).

(** [axs[i, j].<name>(args)] *)
Definition axs (B : backend) (ij : Z * Z) (name : string) (args : list arg)
  : Plot unit :=
  draw B (Call (Some ij) name args).

(** [plt.figure(figsize=(w, h))] and [plt.subplots(r, c, figsize=(w, h))]:
    a new current figure. *)
Definition new_figure (B : backend) (name : string) (args : list arg)
  : Plot unit :=
  λ fig, let c := Call None name args in
         match raises B fig c with
         | Some e => (Raise e, fig)
         | None => (Ok tt, [c])
         end.

(** [buf = io.BytesIO(); plt.savefig(buf, ...); ...; buf.getvalue()] *)
Definition savefig (B : backend) (opts : list arg) : Plot bytes :=
  λ fig, (encode B opts fig, fig).

(** [plt.close()] *)
Definition plt_close : Plot unit := λ _, (Ok tt, []).

(** A block that opens its own figure, run on its own. *)
Definition run_plot {A} (c : Plot A) : result A := (c []).1.

Definition is_nil {A} (l : list A) : bool :=
  match l with
  | [] => true
  | _ :: _ => false
  end.

(** The options of the [savefig] of a chart and of an error image. *)
Definition chart_opts : list arg := [Str "png"; Num 100; Str "tight"].
Definition plain_opts : list arg := [Str "png"].

(** The calls of the [except] branch of an endpoint, and the branch. *)
Definition error_figure (text : string) : figure :=
  [Call None "figure" [Num 6; Num 4];
   Call None "text" [Str text];
   Call None "axis" [Str "off"]].

Definition error_image (B : backend) (text : string) : Plot bytes :=
  run! new_figure B "figure" [Num 6; Num 4] in
  run! plt B "text" [Str text] in
  run! plt B "axis" [Str "off"] in
  let! png := savefig B plain_opts in
  run! plt_close in
  ret png.

(** [django.http.HttpResponse(content, content_type=...)]: status 200. *)
Record HttpResponse : Type := {
  content : bytes;
  content_type : string;
  status_code : Z }.

Definition HttpResponse_ (content : bytes) (content_type : string)
  : HttpResponse :=
  {| content := content; content_type := content_type; status_code := 200 |}.

(** The date column of the rows and the index as [strftime] writes it. *)
Definition dates_of (df : DataFrame) : list date :=
  (λ r, date_of (time_posted r)) <$> df_rows df.

Definition recent_days (daily_counts : list (date * nat))
  : list (string * nat) :=
  let daily_counts :=
    if (10 <? length daily_counts)%nat then tail 10 daily_counts
    else daily_counts in
  (λ p, (str_date p.1, p.2)) <$> daily_counts.

(** ** The chart endpoints

    Each endpoint is given the two clock readings of its request (at the
    look-up and at the store) and the outcome of the query
    [Employee.objects.all().values()], which is evaluated inside the [try].
    For each one, the [..._figure] function is the part of the [try] block
    that comes before [save_cached_chart]. *)

Definition department_figure (B : backend)
    (employees : result (list Employee)) : Plot bytes :=
  let! employees := lift employees in
  let df := {| df_rows := employees |} in
  run! new_figure B "figure" [Num 10; Num 8] in
  run! (if negb (df_empty df) && bool_decide ("department" ∈ columns df)
        then
          let dept_counts := value_counts (department <$> df_rows df) in
          if negb (is_nil dept_counts) then
            run! plt B "pie" [Counts dept_counts] in
            run! plt B "title" [Str "Department Distribution"] in
            plt B "legend" [Labels dept_counts.*1]
          else plt B "text" [Str "No department data"]
        else plt B "text" [Str "No data available"]) in
  run! plt B "tight_layout" [] in
  let! chart_data := savefig B chart_opts in
  run! plt_close in
  ret chart_data.

Definition department_chart (B : backend) (now_get now_save : Q)
    (employees : result (list Employee)) : IO HttpResponse :=
  let! cached_chart := get_cached_chart now_get "departments" 60 in
  if truthy cached_chart then
    ret (HttpResponse_ (default [] cached_chart) "image/png")
  else
    try_except
      (let! chart_data := lift (run_plot (department_figure B employees)) in
       run! save_cached_chart now_save "departments" chart_data 60 in
       ret (HttpResponse_ chart_data "image/png"))
      (λ e,
       let! png := lift (run_plot (error_image B
                     ("Error generating chart: " +:+ str_exn e))) in
       ret (HttpResponse_ png "image/png")).

Definition role_figure (B : backend)
    (employees : result (list Employee)) : Plot bytes :=
  let! employees := lift employees in
  let df := {| df_rows := employees |} in
  run! new_figure B "figure" [Num 10; Num 8] in
  run! (if negb (df_empty df) && bool_decide ("role" ∈ columns df)
        then
          let role_counts := value_counts (role <$> df_rows df) in
          if negb (is_nil role_counts) then
            run! plt B "pie" [Counts role_counts] in
            run! plt B "title" [Str "Role Distribution"] in
            plt B "legend" [Labels role_counts.*1]
          else plt B "text" [Str "No role data"]
        else plt B "text" [Str "No data available"]) in
  run! plt B "tight_layout" [] in
  let! chart_data := savefig B chart_opts in
  run! plt_close in
  ret chart_data.

Definition role_chart (B : backend) (now_get now_save : Q)
    (employees : result (list Employee)) : IO HttpResponse :=
  let! cached_chart := get_cached_chart now_get "roles" 60 in
  if truthy cached_chart then
    ret (HttpResponse_ (default [] cached_chart) "image/png")
  else
    try_except
      (let! chart_data := lift (run_plot (role_figure B employees)) in
       run! save_cached_chart now_save "roles" chart_data 60 in
       ret (HttpResponse_ chart_data "image/png"))
      (λ e,
       let! png := lift (run_plot (error_image B
                     ("Error generating chart: " +:+ str_exn e))) in
       ret (HttpResponse_ png "image/png")).

Definition attendance_figure (B : backend)
    (employees : result (list Employee)) : Plot bytes :=
  let! employees := lift employees in
  let df := {| df_rows := employees |} in
  run! new_figure B "figure" [Num 12; Num 8] in
  run! (if negb (df_empty df) && bool_decide ("time_posted" ∈ columns df)
        then
          try_except
            (let daily_counts := recent_days (groupby_size (dates_of df)) in
             run! plt B "bar" [Counts daily_counts] in
             run! plt B "title" [Str "Daily Attendance (Recent Days)"] in
             run! plt B "xlabel" [Str "Date"] in
             run! plt B "ylabel" [Str "Count"] in
             run! plt B "xticks" [Num 45] in
             run! plt B "yticks" [] in
             for_each daily_counts (λ bar,
               plt B "text" [Str (str_int (Z.of_nat bar.2))]))
            (λ e, plt B "text" [Str ("Error: " +:+ str_exn e)])
        else plt B "text" [Str "No attendance data"]) in
  run! plt B "tight_layout" [] in
  let! chart_data := savefig B chart_opts in
  run! plt_close in
  ret chart_data.

Definition attendance_chart (B : backend) (now_get now_save : Q)
    (employees : result (list Employee)) : IO HttpResponse :=
  let! cached_chart := get_cached_chart now_get "attendance" 60 in
  if truthy cached_chart then
    ret (HttpResponse_ (default [] cached_chart) "image/png")
  else
    try_except
      (let! chart_data := lift (run_plot (attendance_figure B employees)) in
       run! save_cached_chart now_save "attendance" chart_data 60 in
       ret (HttpResponse_ chart_data "image/png"))
      (λ e,
       let! png := lift (run_plot (error_image B
                     ("Error generating chart: " +:+ str_exn e))) in
       ret (HttpResponse_ png "image/png")).

Definition signature_figure (B : backend)
    (employees : result (list Employee)) : Plot bytes :=
  let! employees := lift employees in
  let df := {| df_rows := employees |} in
  run! new_figure B "figure" [Num 10; Num 8] in
  run! (if negb (df_empty df) && bool_decide ("signature" ∈ columns df)
        then
          try_except
            (let signature_counts :=
               value_counts (signature <$> df_rows df) in
             if negb (is_nil signature_counts) then
               run! plt B "pie" [Counts signature_counts;
                                 Labels signature_counts.*1] in
               run! plt B "Circle" [] in
               run! plt B "add_artist" [] in
               plt B "title" [Str "Check-in vs Check-out"]
             else plt B "text" [Str "No signature data"])
            (λ e, plt B "text" [Str ("Error: " +:+ str_exn e)])
        else plt B "text" [Str "No signature data"]) in
  run! plt B "tight_layout" [] in
  let! chart_data := savefig B chart_opts in
  run! plt_close in
  ret chart_data.

Definition signature_chart (B : backend) (now_get now_save : Q)
    (employees : result (list Employee)) : IO HttpResponse :=
  let! cached_chart := get_cached_chart now_get "signatures" 60 in
  if truthy cached_chart then
    ret (HttpResponse_ (default [] cached_chart) "image/png")
  else
    try_except
      (let! chart_data := lift (run_plot (signature_figure B employees)) in
       run! save_cached_chart now_save "signatures" chart_data 60 in
       ret (HttpResponse_ chart_data "image/png"))
      (λ e,
       let! png := lift (run_plot (error_image B
                     ("Error generating chart: " +:+ str_exn e))) in
       ret (HttpResponse_ png "image/png")).

(** [DataVisualizationView.get]: the four charts on a 2x2 grid.  The [print]
    of the third panel's handler writes to the console only and is left
    out. *)
Definition combined_figure (B : backend)
    (employees : result (list Employee)) : Plot bytes :=
  let! employees := lift employees in
  let df := {| df_rows := employees |} in
  run! new_figure B "subplots" [Num 2; Num 2; Num 15; Num 12] in
  run! (if negb (df_empty df) && bool_decide ("department" ∈ columns df)
        then
          let dept_counts := value_counts (department <$> df_rows df) in
          if negb (is_nil dept_counts) then
            run! axs B (0, 0) "pie" [Counts dept_counts] in
            run! axs B (0, 0) "set_title" [Str "Department Distribution"] in
            axs B (0, 0) "legend" [Labels dept_counts.*1]
          else axs B (0, 0) "text" [Str "No department data"]
        else axs B (0, 0) "text" [Str "No data available"]) in
  run! (if negb (df_empty df) && bool_decide ("role" ∈ columns df)
        then
          let role_counts := value_counts (role <$> df_rows df) in
          if negb (is_nil role_counts) then
            run! axs B (0, 1) "pie" [Counts role_counts] in
            run! axs B (0, 1) "set_title" [Str "Role Distribution"] in
            axs B (0, 1) "legend" [Labels role_counts.*1]
          else axs B (0, 1) "text" [Str "No role data"]
        else axs B (0, 1) "text" [Str "No data available"]) in
  run! (if negb (df_empty df) && bool_decide ("time_posted" ∈ columns df)
        then
          try_except
            (let daily_counts := recent_days (groupby_size (dates_of df)) in
             run! axs B (1, 0) "bar" [Counts daily_counts] in
             run! axs B (1, 0) "set_title"
                    [Str "Daily Attendance (Recent Days)"] in
             run! axs B (1, 0) "set_xlabel" [Str "Date"] in
             run! axs B (1, 0) "set_ylabel" [Str "Count"] in
             run! axs B (1, 0) "tick_params" [Num 45] in
             for_each daily_counts (λ bar,
               axs B (1, 0) "text" [Str (str_int (Z.of_nat bar.2))]))
            (λ e, axs B (1, 0) "text"
                    [Str ("Error generating chart: " +:+ str_exn e)])
        else axs B (1, 0) "text" [Str "No attendance data"]) in
  run! (if negb (df_empty df) && bool_decide ("signature" ∈ columns df)
        then
          try_except
            (let signature_counts :=
               value_counts (signature <$> df_rows df) in
             if negb (is_nil signature_counts) then
               run! axs B (1, 1) "pie" [Counts signature_counts;
                                        Labels signature_counts.*1] in
               run! plt B "Circle" [] in
               run! axs B (1, 1) "add_artist" [] in
               axs B (1, 1) "set_title" [Str "Check-in vs Check-out"]
             else axs B (1, 1) "text" [Str "No signature data"])
            (λ e, axs B (1, 1) "text" [Str ("Error: " +:+ str_exn e)])
        else axs B (1, 1) "text" [Str "No signature data"]) in
  run! plt B "tight_layout" [] in
  let! chart_data := savefig B chart_opts in
  run! plt_close in
  ret chart_data.

Definition DataVisualizationView_get (B : backend) (now_get now_save : Q)
    (employees : result (list Employee)) : IO HttpResponse :=
  let! cached_chart := get_cached_chart now_get "combined" 60 in
  if truthy cached_chart then
    ret (HttpResponse_ (default [] cached_chart) "image/png")
  else
    try_except
      (let! chart_data := lift (run_plot (combined_figure B employees)) in
       run! save_cached_chart now_save "combined" chart_data 60 in
       ret (HttpResponse_ chart_data "image/png"))
      (λ e,
       let! png := lift (run_plot (error_image B
                     ("Error generating charts: " +:+ str_exn e))) in
       ret (HttpResponse_ png "image/png")).

(** The chart routes of [attendance/urls.py]: the route, the chart type
    under which the endpoint caches, what it draws, the text of its error
    image, and the endpoint. *)
Record endpoint : Type := {
  route : string;
  chart_type : string;
  figure_of : backend → result (list Employee) → Plot bytes;
  error_text : exn → string;
  view : backend → Q → Q → result (list Employee) → IO HttpResponse }.

Definition chart_error (e : exn) : string :=
  "Error generating chart: " +:+ str_exn e.

Definition charts_error (e : exn) : string :=
  "Error generating charts: " +:+ str_exn e.

Definition visualization_route : endpoint :=
  {| route := "visualization/"; chart_type := "combined";
     figure_of := combined_figure; error_text := charts_error;
     view := DataVisualizationView_get |}.

Definition departments_route : endpoint :=
  {| route := "chart/departments/"; chart_type := "departments";
     figure_of := department_figure; error_text := chart_error;
     view := department_chart |}.

Definition roles_route : endpoint :=
  {| route := "chart/roles/"; chart_type := "roles";
     figure_of := role_figure; error_text := chart_error;
     view := role_chart |}.

Definition attendance_route : endpoint :=
  {| route := "chart/attendance/"; chart_type := "attendance";
     figure_of := attendance_figure; error_text := chart_error;
     view := attendance_chart |}.

Definition signatures_route : endpoint :=
  {| route := "chart/signatures/"; chart_type := "signatures";
     figure_of := signature_figure; error_text := chart_error;
     view := signature_chart |}.

Definition urlpatterns : list endpoint :=
  [visualization_route; departments_route; roles_route; attendance_route;
   signatures_route].

(** ** Reading of the aggregation and of decimal strings

    What the properties below are stated with. *)

(** Number of occurrences of a label in a column. *)
Definition occurrences {A} `{EqDecision A} (x : A) (l : list A) : nat :=
  length (filter (λ y, y = x) l).

(** The value of a string of decimal digits, read from the left. *)
Definition digit_val (c : Ascii.ascii) : N := (Ascii.N_of_ascii c - 48)%N.

Definition is_digit (c : Ascii.ascii) : bool :=
  ((48 <=? Ascii.N_of_ascii c) && (Ascii.N_of_ascii c <=? 57))%N.

Fixpoint dec_val (acc : N) (s : string) : N :=
  match s with
  | EmptyString => acc
  | String c s' => dec_val (acc * 10 + digit_val c)%N s'
  end.

Fixpoint all_digits (s : string) : bool :=
  match s with
  | EmptyString => true
  | String c s' => is_digit c && all_digits s'
  end.

(** The files of a chart type: the names the clean-up loop looks at. *)
Definition of_chart_type (chart_type file : string) : bool :=
  startswith file ("chart_" +:+ chart_type +:+ "_").

(** The shape the five endpoints share. *)
Definition endpoint_shape (chart_type : string) (render : result bytes)
    (error_text : exn → string) (B : backend) (now_get now_save : Q)
  : IO HttpResponse :=
  let! cached_chart := get_cached_chart now_get chart_type 60 in
  if truthy cached_chart then
    ret (HttpResponse_ (default [] cached_chart) "image/png")
  else
    try_except
      (let! chart_data := lift render in
       run! save_cached_chart now_save chart_type chart_data 60 in
       ret (HttpResponse_ chart_data "image/png"))
      (λ e,
       let! png := lift (run_plot (error_image B (error_text e))) in
       ret (HttpResponse_ png "image/png")).

(** ** Sample data *)

Definition png_1 : bytes := [x89; x50; x4e; x47; x01].
Definition png_2 : bytes := [x89; x50; x4e; x47; x02].
Definition png_3 : bytes := [x89; x50; x4e; x47; x03].

Definition two_role_entries : dir :=
  {[ "chart_roles_28333334.png" := [x01]; "chart_roles_28333333.png" := [x02] ]}.

Definition stale_departments : dir :=
  {[ "chart_departments_28333333.png" := png_1 ]}.

Definition at_time (y m d h mi s : Z) : datetime :=
  {| dt_year := y; dt_month := m; dt_day := d;
     dt_hour := h; dt_minute := mi; dt_second := s; dt_microsecond := 0 |}.

Definition employee (i : Z) (dept rl sig : string) (t : datetime)
  : Employee :=
  {| id := i; first_name := "Ada"; last_name := "Lovelace";
     email := "ada@example.org"; phone_number := "0700000000";
     role := rl; department := dept; signature := sig; time_posted := t |}.

Definition three_rows : list Employee :=
  [ employee 1 "A" "Engineer" "check-in" (at_time 2025 6 2 8 0 5);
    employee 2 "A" "Analyst" "check-out" (at_time 2025 6 2 17 30 0);
    employee 3 "B" "Engineer" "check-in" (at_time 2025 6 3 8 1 0) ].

(** A backend whose [pie] raises, and one whose [bar] raises; both encode a
    figure as a PNG signature followed by one byte per call. *)
Definition toy_encode (opts : list arg) (fig : figure) : result bytes :=
  Ok ([x89; x50; x4e; x47] ++ ((λ _, x2e) <$> fig))%list.

Definition broken_pie : backend :=
  {| raises := λ _ c,
       if decide (name c = "pie")
       then Some (PyErr "ValueError" "x must be 1D") else None;
     encode := toy_encode |}.

(** A backend whose [pie] raises and whose [savefig] raises as well. *)
Definition broken_pie_and_savefig : backend :=
  {| raises := λ _ c,
       if decide (name c = "pie")
       then Some (PyErr "ValueError" "x must be 1D") else None;
     encode := λ _ _, Raise (PyErr "RuntimeError" "libpng signaled error") |}.

Definition broken_bar : backend :=
  {| raises := λ _ c,
       if decide (name c = "bar")
       then Some (PyErr "TypeError" "unhashable type") else None;
     encode := toy_encode |}.

(** ** What the further properties are stated with *)

(** The chart types under which the routes cache. *)
Definition chart_types : list string := chart_type <$> urlpatterns.

Definition roles_and_departments : dir :=
  {[ "chart_roles_28333333.png" := png_1;
     "chart_departments_28333333.png" := png_2 ]}.

Definition one_roles_entry : dir :=
  {[ "chart_roles_28333333.png" := png_1 ]}.

(** The distributions by label of the analysis, each with its column. *)
Definition label_columns : list (string * (Employee → string)) :=
  [("checkin_vs_checkout", signature);
   ("department_distribution", department);
   ("role_distribution", role)].

(** What [datetime.date] guarantees of its fields. *)
Definition valid_date (d : date) : Prop :=
  (1 ≤ year d ≤ 9999)%Z ∧ (1 ≤ month d ≤ 12)%Z ∧ (1 ≤ day d ≤ 31)%Z.

#[global] Instance date_countable : Countable date :=
  inj_countable' (λ d, (year d, month d, day d))
    (λ t, Date t.1.1 t.1.2 t.2) (λ d, match d with Date _ _ _ => eq_refl end).

(** A backend none of whose calls raises. *)
Definition never_raises (B : backend) : Prop :=
  ∀ fig c, raises B fig c = None.

Definition plain_backend : backend :=
  {| raises := λ _ _, None; encode := toy_encode |}.

Definition earlier (p q : date * nat) : Prop := date_ltb p.1 q.1 = true.

Definition database_down : exn :=
  PyErr "OperationalError" "no such table: attendance_employee".

(** A backend on which the calls of one name raise [e] and no other. *)
Definition raises_only_on (B : backend) (failing : string) (e : exn)
  : Prop :=
  ∀ fig c, raises B fig c = if decide (name c = failing) then Some e
                            else None.

Definition empty_roles_file : dir :=
  {[ "chart_roles_28333334.png" := [] ]}.

(** * Properties *)

(** ** Strings and numbers *)

Lemma append_cons c (s1 s2 : string) :
  String c s1 +:+ s2 = String c (s1 +:+ s2).
Proof. reflexivity. Qed.

Lemma append_assoc (s1 s2 s3 : string) :
  (s1 +:+ s2) +:+ s3 = s1 +:+ (s2 +:+ s3).
Proof.
  induction s1 as [|c s1 IH]; [done |]. rewrite !append_cons. by f_equal.
Qed.

Lemma startswith_append (p s : string) : startswith (p +:+ s) p = true.
Proof.
  unfold startswith. induction p as [|c p IH].
  - by destruct s.
  - rewrite append_cons. simpl.
    destruct (Ascii.ascii_dec c c); [exact IH | done].
Qed.

Lemma cache_key_entry_name now chart_type w b :
  bucket now w = Ok b →
  ∃ key, cache_key now chart_type w = Ok key
         ∧ key +:+ ".png" = entry_name chart_type b.
Proof.
  intros Hb. unfold cache_key. rewrite Hb. eexists; split; [done |].
  unfold entry_name. by rewrite !append_assoc.
Qed.

Lemma cache_key_raise now chart_type w e :
  bucket now w = Raise e → cache_key now chart_type w = Raise e.
Proof. intros Hb. unfold cache_key. by rewrite Hb. Qed.

(** On a clock that is not negative and a positive window, [int] of the
    quotient is its floor. *)
Lemma bucket_floor (now : Q) (w : Z) :
  (0 <= now)%Q → 0 < w →
  bucket now w = Ok (Qfloor (now / inject_Z w)).
Proof.
  intros Hnow Hw. unfold bucket, truediv.
  destruct (decide (w = 0)) as [-> | _]; [lia |].
  f_equal. unfold int_of.
  destruct now as [n d]. destruct w as [| w | w]; try lia.
  unfold Qle in Hnow. simpl in Hnow.
  unfold Qfloor, Qdiv, Qmult, Qinv, inject_Z. simpl.
  apply Z.quot_div_nonneg; lia.
Qed.

(** ** Decimal strings *)

Lemma pretty_N_char_digit x :
  (x < 10)%N →
  is_digit (pretty_N_char x) = true ∧ digit_val (pretty_N_char x) = x.
Proof.
  intros Hx.
  assert (x = 0 ∨ x = 1 ∨ x = 2 ∨ x = 3 ∨ x = 4 ∨ x = 5 ∨ x = 6 ∨ x = 7
          ∨ x = 8 ∨ x = 9)%N as Hcases by lia.
  repeat (destruct Hcases as [-> | Hcases]; [by vm_compute |]).
  subst x. by vm_compute.
Qed.

Lemma dec_val_app acc d r : dec_val acc (d +:+ r) = dec_val (dec_val acc d) r.
Proof.
  revert acc. induction d as [|c d IH]; intros acc; [done |].
  rewrite append_cons. cbn [dec_val]. apply IH.
Qed.

Lemma all_digits_app d r :
  all_digits (d +:+ r) = all_digits d && all_digits r.
Proof.
  induction d as [|c d IH]; [done |].
  rewrite append_cons. cbn [all_digits]. rewrite IH. by rewrite andb_assoc.
Qed.

Lemma dec_val_ge acc r : (acc ≤ dec_val acc r)%N.
Proof.
  revert acc. induction r as [|c r IH]; intros acc; cbn [dec_val]; [lia |].
  etrans; [| apply IH]. lia.
Qed.

Lemma pretty_N_go_digits x s :
  ∃ d, pretty_N_go x s = d +:+ s ∧ all_digits d = true ∧ dec_val 0 d = x.
Proof.
  revert s. induction (N.lt_wf_0 x) as [x _ IH]; intros s.
  destruct (decide (x = 0)%N) as [-> | Hx].
  - exists "". by rewrite pretty_N_go_0.
  - rewrite pretty_N_go_step by lia.
    destruct (IH (x `div` 10)%N) with (s := String (pretty_N_char (x `mod` 10)) s)
      as (d & -> & Hd & Hval).
    { apply N.div_lt; lia. }
    destruct (pretty_N_char_digit (x `mod` 10)%N) as [Hdig Hv].
    { apply N.mod_lt. lia. }
    exists (d +:+ String (pretty_N_char (x `mod` 10)) "").
    rewrite append_assoc, append_cons. split; [done |]. split.
    + rewrite all_digits_app, Hd. cbn [all_digits]. by rewrite Hdig.
    + rewrite dec_val_app, Hval. cbn [dec_val]. rewrite Hv.
      pose proof (N.div_mod x 10). lia.
Qed.

Lemma pretty_Z_digits (b : Z) :
  (0 ≤ b)%Z → all_digits (pretty b) = true ∧ dec_val 0 (pretty b) = Z.to_N b.
Proof.
  intros Hb. destruct b as [| p | p]; [done | | lia].
  unfold pretty, pretty_Z, pretty, pretty_positive, pretty, pretty_N.
  rewrite decide_False by done.
  destruct (pretty_N_go_digits (N.pos p) "") as (d & -> & Hd & Hval).
  assert (d +:+ "" = d) as ->.
  { clear. induction d as [|c d IH]; [done |]. rewrite append_cons. by f_equal. }
  done.
Qed.

Lemma prefix_split d e : String.prefix d e = true → ∃ r, e = d +:+ r.
Proof.
  revert e. induction d as [|c d IH]; intros e He.
  - by exists e.
  - destruct e as [|a e]; [done |]. simpl in He.
    destruct (Ascii.ascii_dec c a) as [-> | ]; [| done].
    destruct (IH e He) as [r ->]. by exists r.
Qed.

Lemma prefix_digits_stop d e t :
  all_digits d = true →
  match t with EmptyString => True | String c _ => is_digit c = false end →
  String.prefix d (e +:+ t) = true → String.prefix d e = true.
Proof.
  intros Hd Ht. revert d Hd. induction e as [|a e IH]; intros d Hd Hp.
  - destruct d as [|c d]; [done |]. exfalso.
    change ("" +:+ t) with t in Hp. destruct t as [|c' t]; [done |].
    simpl in Hp. destruct (Ascii.ascii_dec c c') as [-> |]; [| done].
    cbn [all_digits] in Hd. by rewrite Ht in Hd.
  - destruct d as [|c d]; [done |].
    rewrite append_cons in Hp. simpl in Hp |- *.
    destruct (Ascii.ascii_dec c a); [| done].
    apply IH; [| done]. cbn [all_digits] in Hd. by apply andb_prop in Hd as [_ ?].
Qed.

Lemma prefix_append_cancel p s t :
  String.prefix (p +:+ s) (p +:+ t) = String.prefix s t.
Proof.
  induction p as [|c p IH]; [done |]. rewrite !append_cons. simpl.
  by destruct (Ascii.ascii_dec c c).
Qed.

(** The decimal string of a bucket does not begin the file-name tail of a
    smaller bucket. *)
Lemma str_not_prefix_of_smaller (b b' : Z) :
  (0 ≤ b' < b)%Z →
  String.prefix (str_int b) (str_int b' +:+ ".png") = false.
Proof.
  intros Hb. unfold str_int.
  destruct (String.prefix _ _) eqn:Hp; [exfalso | done].
  destruct (pretty_Z_digits b) as [Hd Hv]; [lia |].
  destruct (pretty_Z_digits b') as [Hd' Hv']; [lia |].
  apply prefix_digits_stop in Hp; [| done | by vm_compute].
  apply prefix_split in Hp as [r Hr].
  pose proof (dec_val_ge (dec_val 0 (pretty b)) r) as Hge.
  rewrite <- dec_val_app, <- Hr, Hv, Hv' in Hge. lia.
Qed.

(** ** The clean-up loop *)

Section cleanup.
Variable P : string → bool.

Let body (file : string) : IO unit :=
  if P file then try_except (remove file) (λ _, ret tt) else ret tt.

Let swept (fs : dir) (l : list string) : dir :=
  foldl (λ m f, if P f then delete f m else m) fs l.

Lemma body_delete file (fs : dir) :
  body file fs = (Ok tt, if P file then delete file fs else fs).
Proof.
  unfold body. destruct (P file); [| done].
  unfold try_except, remove.
  destruct (fs !! file) eqn:Hf; [done |].
  by rewrite delete_id.
Qed.

Lemma for_each_swept l (fs : dir) :
  for_each l body fs = (Ok tt, swept fs l).
Proof.
  revert fs. induction l as [|f l IH]; intros fs; [done |].
  cbn [for_each]. unfold bind at 1. rewrite body_delete. apply IH.
Qed.

Lemma swept_lookup l (fs : dir) k :
  swept fs l !! k =
  if P k && bool_decide (k ∈ l) then None else fs !! k.
Proof.
  revert fs. induction l as [|f l IH]; intros fs.
  - by rewrite andb_false_r.
  - unfold swept in *. cbn [foldl]. rewrite IH.
    destruct (P k) eqn:Pk; cbn [andb].
    + destruct (decide (k = f)) as [-> | Hne].
      * rewrite Pk, lookup_delete_eq.
        rewrite (bool_decide_eq_true_2 (f ∈ f :: l)) by apply list_elem_of_here.
        by case_bool_decide.
      * assert ((if P f then delete f fs else fs) !! k = fs !! k) as ->.
        { destruct (P f); [by rewrite lookup_delete_ne |done]. }
        rewrite (bool_decide_ext (k ∈ f :: l) (k ∈ l)); [done |].
        rewrite elem_of_cons. split; [intros [? | ?]; [congruence | done] | by right].
    + destruct (decide (k = f)) as [-> | Hne].
      * by rewrite Pk.
      * destruct (P f); [by rewrite lookup_delete_ne | done].
Qed.

(** Over the listing of the directory itself, the loop deletes exactly
    the files that pass the test. *)
Lemma for_each_listdir (fs : dir) :
  ∃ fs', for_each (map_to_list fs).*1 body fs = (Ok tt, fs')
         ∧ ∀ k, fs' !! k = if P k then None else fs !! k.
Proof.
  eexists; split; [apply for_each_swept |].
  intros k. rewrite swept_lookup.
  destruct (P k); [| done]. cbn [andb].
  case_bool_decide as Hk; [done |].
  destruct (fs !! k) as [x|] eqn:Hx; [| done].
  exfalso. apply Hk. apply list_elem_of_fmap.
  exists (k, x). split; [done |]. by apply elem_of_map_to_list.
Qed.
End cleanup.

(** ** What [save_cached_chart] and [get_cached_chart] do to the directory *)

Lemma save_cached_chart_spec now chart_type image_data w (fs : dir) key :
  cache_key now chart_type w = Ok key →
  ∃ fs', save_cached_chart now chart_type image_data w fs = (Ok tt, fs')
         ∧ ∀ f, fs' !! f =
                if decide (f = key +:+ ".png") then Some image_data
                else if is_old chart_type key f then None else fs !! f.
Proof.
  intros Hkey.
  destruct (for_each_listdir (is_old chart_type key) fs) as (fs1 & Hloop & Hfs1).
  exists (<[key +:+ ".png" := image_data]> fs1). split.
  - unfold save_cached_chart, bind, lift, listdir. rewrite Hkey.
    cbn beta iota. rewrite Hloop. done.
  - intros f. case_decide as Hf.
    + subst f. apply lookup_insert_eq.
    + rewrite lookup_insert_ne by done. apply Hfs1.
Qed.

Lemma save_cached_chart_raise now chart_type image_data w (fs : dir) e :
  cache_key now chart_type w = Raise e →
  save_cached_chart now chart_type image_data w fs = (Raise e, fs).
Proof.
  intros Hkey. unfold save_cached_chart, bind, lift. by rewrite Hkey.
Qed.

Lemma get_cached_chart_spec now chart_type w (fs : dir) key :
  cache_key now chart_type w = Ok key →
  get_cached_chart now chart_type w fs = (Ok (fs !! (key +:+ ".png")), fs).
Proof.
  intros Hkey. unfold get_cached_chart, bind, lift, path_exists, read_file.
  rewrite Hkey. cbn beta iota.
  destruct (fs !! (key +:+ ".png")) as [data|] eqn:Hf.
  - rewrite bool_decide_eq_true_2 by eauto. by rewrite Hf.
  - rewrite bool_decide_eq_false_2; [done |]. by intros [? ?].
Qed.

Lemma get_cached_chart_raise now chart_type w (fs : dir) e :
  cache_key now chart_type w = Raise e →
  get_cached_chart now chart_type w fs = (Raise e, fs).
Proof.
  intros Hkey. unfold get_cached_chart, bind, lift. by rewrite Hkey.
Qed.

(** ** The chart cache: look-up and store *)

(** C4: on a clock that is not negative and for a positive window, the
    look-up computes the bucket as the floor of the clock divided by the
    window, builds the key from the chart type and that bucket, and returns
    exactly what the directory holds under that key: the stored bytes when
    the entry is there, nothing otherwise, whatever entries other buckets
    of the chart type have.  It leaves the directory as it was. *)
Theorem lookup_exact_key now chart_type w (fs : dir) :
  (0 <= now)%Q → 0 < w →
  let b := Qfloor (now / inject_Z w) in
  bucket now w = Ok b
  ∧ cache_key now chart_type w
    = Ok ("chart_" +:+ chart_type +:+ "_" +:+ str_int b)
  ∧ get_cached_chart now chart_type w fs = (Ok (entry fs chart_type b), fs)
  ∧ (∀ b' data, b' ≠ b → entry fs chart_type b = None →
       entry fs chart_type b' = Some data →
       get_cached_chart now chart_type w fs = (Ok None, fs)).
Proof.
  intros Hnow Hw b.
  pose proof (bucket_floor now w Hnow Hw) as Hb. fold b in Hb.
  destruct (cache_key_entry_name now chart_type w b Hb) as (key & Hkey & Hname).
  assert (get_cached_chart now chart_type w fs
          = (Ok (entry fs chart_type b), fs)) as Hget.
  { rewrite (get_cached_chart_spec _ _ _ _ key Hkey).
    unfold entry. by rewrite Hname. }
  repeat split; [done | | done |].
  - unfold cache_key. by rewrite Hb.
  - intros b' data _ Hnone _. by rewrite Hget, Hnone.
Qed.

Lemma lookup_exact_key_witness :
  get_cached_chart (at_second 1700000040) "roles" 60 two_role_entries
  = (Ok (Some [x01]), two_role_entries).
Proof.
  refine (proj1 (proj2 (proj2
    (lookup_exact_key (at_second 1700000040) "roles" 60 two_role_entries
       _ _)))).
  - vm_compute. discriminate.
  - lia.
Defined.

(** C9: two look-ups of a chart type made one after the other in the same
    bucket, with no store in between, give the same outcome (both nothing,
    or both the same bytes), and the directory is as it was. *)
Theorem lookup_twice chart_type w now1 now2 (fs : dir) :
  bucket now1 w = bucket now2 w →
  let first := get_cached_chart now1 chart_type w fs in
  let second := get_cached_chart now2 chart_type w first.2 in
  first.1 = second.1 ∧ second.2 = fs.
Proof.
  intros Hsame. cbv zeta.
  assert (cache_key now1 chart_type w = cache_key now2 chart_type w) as Hkey.
  { unfold cache_key. by rewrite Hsame. }
  destruct (cache_key now2 chart_type w) as [key | e] eqn:Hk2.
  - rewrite (get_cached_chart_spec now1 _ _ _ key Hkey). cbn [fst snd].
    by rewrite (get_cached_chart_spec now2 _ _ _ key Hk2).
  - rewrite (get_cached_chart_raise now1 _ _ _ e Hkey). cbn [fst snd].
    by rewrite (get_cached_chart_raise now2 _ _ _ e Hk2).
Qed.

Lemma lookup_twice_witness :
  let first :=
    get_cached_chart (at_second 1700000040) "roles" 60 two_role_entries in
  let second :=
    get_cached_chart (at_second 1700000099) "roles" 60 first.2 in
  first.1 = second.1 ∧ second.2 = two_role_entries.
Proof.
  apply (lookup_twice "roles" 60 (at_second 1700000040)
           (at_second 1700000099) two_role_entries).
  vm_compute. reflexivity.
Defined.

(** C3: when a store of bytes [B] for a chart type completes, a look-up of
    that chart type with the same window, made in the same bucket, returns
    exactly [B]. *)
Theorem store_then_lookup chart_type w (B : bytes) now_store now_lookup
    (fs fs' : dir) :
  save_cached_chart now_store chart_type B w fs = (Ok tt, fs') →
  bucket now_lookup w = bucket now_store w →
  get_cached_chart now_lookup chart_type w fs' = (Ok (Some B), fs').
Proof.
  intros Hsave Hsame.
  destruct (cache_key now_store chart_type w) as [key | e] eqn:Hkey.
  - destruct (save_cached_chart_spec now_store chart_type B w fs key Hkey)
      as (fs1 & Hsave1 & Hfs1).
    rewrite Hsave1 in Hsave. injection Hsave as <-.
    assert (cache_key now_lookup chart_type w = Ok key) as Hkey'.
    { unfold cache_key in *. by rewrite Hsame. }
    rewrite (get_cached_chart_spec _ _ _ _ key Hkey'), Hfs1.
    by rewrite decide_True.
  - rewrite (save_cached_chart_raise _ _ _ _ _ e Hkey) in Hsave. done.
Qed.

Lemma store_then_lookup_witness :
  get_cached_chart (at_second 1700000099) "roles" 60
    {[ "chart_roles_28333334.png" := png_1 ]}
  = (Ok (Some png_1), {[ "chart_roles_28333334.png" := png_1 ]}).
Proof.
  apply (store_then_lookup "roles" 60 png_1 (at_second 1700000040)
           (at_second 1700000099) two_role_entries).
  - vm_compute. reflexivity.
  - vm_compute. reflexivity.
Defined.

(** What a store that completes leaves in the directory: the new entry
    under the current key; no file of the chart type's prefix whose name
    does not begin with the current key; every other file as it was. *)
Lemma store_effect chart_type w (B : bytes) now (fs fs' : dir) :
  save_cached_chart now chart_type B w fs = (Ok tt, fs') →
  ∃ key, cache_key now chart_type w = Ok key
    ∧ fs' !! (key +:+ ".png") = Some B
    ∧ (∀ f, is_old chart_type key f = true → fs' !! f = None)
    ∧ (∀ f, f ≠ key +:+ ".png" → is_old chart_type key f = false →
         fs' !! f = fs !! f).
Proof.
  intros Hsave.
  destruct (cache_key now chart_type w) as [key | e] eqn:Hkey.
  - destruct (save_cached_chart_spec now chart_type B w fs key Hkey)
      as (fs1 & Hsave1 & Hfs1).
    rewrite Hsave1 in Hsave. injection Hsave as <-.
    exists key. repeat split.
    + by rewrite Hfs1, decide_True.
    + intros f Hold. rewrite Hfs1, Hold.
      rewrite decide_False; [done |]. intros ->.
      unfold is_old in Hold. rewrite startswith_append in Hold.
      by rewrite andb_false_r in Hold.
    + intros f Hne Hold. by rewrite Hfs1, Hold, decide_False.
  - rewrite (save_cached_chart_raise _ _ _ _ _ e Hkey) in Hsave. done.
Qed.

(** The key of a bucket does not begin the file name of a smaller
    bucket, which the clean-up therefore takes for old. *)
Lemma entry_of_smaller_bucket_is_old chart_type (b b' : Z) :
  (0 ≤ b' < b)%Z →
  is_old chart_type ("chart_" +:+ chart_type +:+ "_" +:+ str_int b)
    (entry_name chart_type b') = true.
Proof.
  intros Hb. unfold is_old, entry_name, startswith.
  apply andb_true_intro. split.
  - rewrite !prefix_append_cancel. exact (startswith_append "_" _).
  - rewrite !prefix_append_cancel.
    by rewrite str_not_prefix_of_smaller.
Qed.

Lemma cache_key_bucket now chart_type w b key :
  bucket now w = Ok b → cache_key now chart_type w = Ok key →
  key = "chart_" +:+ chart_type +:+ "_" +:+ str_int b
  ∧ key +:+ ".png" = entry_name chart_type b.
Proof.
  intros Hb. unfold cache_key. rewrite Hb. intros [= <-]. split; [done |].
  unfold entry_name. by rewrite !append_assoc.
Qed.

(** A store that completes removes the entry of every smaller bucket of
    its chart type (buckets are not negative on a clock and a window that
    are not): with one window and a clock that does not go back, every
    earlier entry goes. *)
Lemma store_removes_smaller_buckets chart_type w (B : bytes) now
    (fs fs' : dir) (b b' : Z) :
  save_cached_chart now chart_type B w fs = (Ok tt, fs') →
  bucket now w = Ok b → (0 ≤ b' < b)%Z →
  entry fs' chart_type b = Some B ∧ entry fs' chart_type b' = None.
Proof.
  intros Hsave Hb Hlt.
  destruct (store_effect _ _ _ _ _ _ Hsave) as (key & Hkey & Hnew & Hold & _).
  destruct (cache_key_bucket _ _ _ _ _ Hb Hkey) as [-> Hname].
  unfold entry. split; [by rewrite <- Hname |].
  apply Hold. by apply entry_of_smaller_bucket_is_old.
Qed.

(** From a directory that holds no file of the chart type, two stores of
    which the second has the greater bucket leave exactly one file of the
    chart type, the entry of the second store. *)
Lemma two_stores_from_clean_directory chart_type (B1 B2 : bytes) w w'
    now1 now2 (fs fs1 fs2 : dir) (b1 b2 : Z) :
  (∀ f, of_chart_type chart_type f = true → fs !! f = None) →
  save_cached_chart now1 chart_type B1 w fs = (Ok tt, fs1) →
  save_cached_chart now2 chart_type B2 w' fs1 = (Ok tt, fs2) →
  bucket now1 w = Ok b1 → bucket now2 w' = Ok b2 → (0 ≤ b1 < b2)%Z →
  ∀ f, of_chart_type chart_type f = true →
       fs2 !! f = if decide (f = entry_name chart_type b2) then Some B2
                  else None.
Proof.
  intros Hclean Hsave1 Hsave2 Hb1 Hb2 Hlt f Hf.
  destruct (store_effect _ _ _ _ _ _ Hsave1)
    as (key1 & Hkey1 & _ & Hold1 & Hkeep1).
  destruct (store_effect _ _ _ _ _ _ Hsave2)
    as (key2 & Hkey2 & Hnew2 & Hold2 & Hkeep2).
  destruct (cache_key_bucket _ _ _ _ _ Hb1 Hkey1) as [-> Hname1].
  destruct (cache_key_bucket _ _ _ _ _ Hb2 Hkey2) as [-> Hname2].
  rewrite Hname1 in Hkeep1. rewrite Hname2 in Hnew2, Hkeep2.
  case_decide as Hf2; [by subst f |].
  destruct (is_old chart_type ("chart_" +:+ chart_type +:+ "_" +:+ str_int b2) f)
    eqn:Hold; [by apply Hold2 |].
  rewrite Hkeep2 by done.
  destruct (decide (f = entry_name chart_type b1)) as [-> | Hf1].
  { by rewrite entry_of_smaller_bucket_is_old in Hold. }
  destruct (is_old chart_type ("chart_" +:+ chart_type +:+ "_" +:+ str_int b1) f)
    eqn:Hold'; [by apply Hold1 |].
  rewrite Hkeep1 by done. by apply Hclean.
Qed.

(** C1: the clean-up of a store spares every file whose name begins with
    the current key, not only the current file, so an entry of the chart
    type whose bucket starts with the digits of the current bucket stays.
    Here an entry stored with a window of 6 seconds (bucket 283333340)
    is still on disk after a store with a window of 60 seconds five seconds
    later (bucket 28333334): the claim that a store leaves no entry of the
    chart type for another bucket fails. *)
Theorem store_spares_longer_bucket :
  let fs0 := (save_cached_chart (at_second 1700000040) "departments"
                png_1 6 ∅).2 in
  let after := save_cached_chart (at_second 1700000045) "departments"
                 png_2 60 fs0 in
  fs0 = {[ "chart_departments_283333340.png" := png_1 ]}
  ∧ bucket (at_second 1700000045) 60 = Ok 28333334
  ∧ after.1 = Ok tt
  ∧ entry after.2 "departments" 28333334 = Some png_2
  ∧ entry after.2 "departments" 283333340 = Some png_1
  ∧ ¬ (∀ chart_type w now (B : bytes) (fs fs' : dir) b b',
         save_cached_chart now chart_type B w fs = (Ok tt, fs') →
         bucket now w = Ok b → b' ≠ b → entry fs' chart_type b' = None).
Proof.
  cbv zeta. repeat split; try (vm_compute; reflexivity).
  intros Hclaim.
  specialize (Hclaim "departments" 60 (at_second 1700000045) png_2
    {[ "chart_departments_283333340.png" := png_1 ]}
    {[ "chart_departments_283333340.png" := png_1;
       "chart_departments_28333334.png" := png_2 ]}
    28333334 283333340).
  assert (Some png_1 = None) as Habs; [| done].
  rewrite <- Hclaim; [vm_compute; reflexivity | vm_compute; reflexivity
                     | vm_compute; reflexivity | lia].
Qed.

(** C5: for the same reason two entries for "departments" can be on disk
    after two stores of which the second has the greater bucket.  An entry
    stored with a window of 6 seconds (bucket 283333340) survives the store
    of [png_2] with a window of 600 seconds (bucket 2833333) and the store
    of [png_3] with a window of 60 seconds (bucket 28333334). *)
Theorem two_stores_leave_two_entries :
  let fs0 := (save_cached_chart (at_second 1700000040) "departments"
                png_1 6 ∅).2 in
  let first := save_cached_chart (at_second 1700000041) "departments"
                 png_2 600 fs0 in
  let second := save_cached_chart (at_second 1700000042) "departments"
                  png_3 60 first.2 in
  fs0 = {[ "chart_departments_283333340.png" := png_1 ]}
  ∧ first.1 = Ok tt ∧ second.1 = Ok tt
  ∧ bucket (at_second 1700000041) 600 = Ok 2833333
  ∧ bucket (at_second 1700000042) 60 = Ok 28333334
  ∧ entry second.2 "departments" 28333334 = Some png_3
  ∧ entry second.2 "departments" 283333340 = Some png_1
  ∧ second.2 = {[ "chart_departments_283333340.png" := png_1;
                  "chart_departments_28333334.png" := png_3 ]}.
Proof. cbv zeta. repeat split; vm_compute; reflexivity. Qed.

(** ** The aggregation of [DataAnalysisView.get] *)

(** *** Counting labels *)

Section tally.
Context {A : Type} `{Countable A}.
Implicit Types (acc : list (A * nat)) (l : list A).

Lemma bump_keys x acc :
  NoDup acc.*1 → NoDup (bump x acc).*1 ∧ ∀ y, y ∈ (bump x acc).*1 ↔ y = x ∨ y ∈ acc.*1.
Proof.
  induction acc as [| [y n] acc IH]; intros Hnd.
  - cbn. split; [apply NoDup_singleton |]. intros y. set_solver.
  - cbn [bump]. destruct (decide (x = y)) as [-> | Hne].
    + cbn in *. split; [done |]. intros z. set_solver.
    + cbn in *. apply NoDup_cons in Hnd as [Hy Hnd].
      destruct (IH Hnd) as [IH1 IH2]. split.
      * apply NoDup_cons. split; [| done]. rewrite IH2. naive_solver.
      * intros z. rewrite !elem_of_cons, IH2. naive_solver.
Qed.

Lemma bump_lookup x acc (y : A) :
  (list_to_map (bump x acc) : gmap A nat) !! y
  = if decide (y = x)
    then Some (S (default 0%nat ((list_to_map acc : gmap A nat) !! x)))
    else (list_to_map acc : gmap A nat) !! y.
Proof.
  induction acc as [| [z n] acc IH].
  - cbn. case_decide as Hy; [subst; by rewrite lookup_insert_eq |].
    by rewrite lookup_insert_ne.
  - cbn [bump]. destruct (decide (x = z)) as [-> | Hne]; cbn.
    + case_decide as Hy.
      * subst. by rewrite !lookup_insert_eq.
      * by rewrite !lookup_insert_ne.
    + destruct (decide (y = z)) as [-> | Hyz].
      * rewrite lookup_insert_eq. rewrite decide_False by done.
        by rewrite lookup_insert_eq.
      * rewrite lookup_insert_ne by done. rewrite IH.
        rewrite (lookup_insert_ne _ z x) by done.
        by rewrite (lookup_insert_ne _ z y) by done.
Qed.

Lemma tally_snoc l x : tally (l ++ [x]) = bump x (tally l).
Proof. unfold tally. by rewrite foldl_app. Qed.

Lemma tally_NoDup l : NoDup (tally l).*1.
Proof.
  induction l as [| x l IH] using rev_ind; [constructor |].
  rewrite tally_snoc. by apply bump_keys.
Qed.

Lemma occurrences_snoc (x y : A) l :
  occurrences y (l ++ [x])
  = if decide (y = x) then S (occurrences y l) else occurrences y l.
Proof.
  unfold occurrences. rewrite filter_app, length_app.
  case_decide as Hy.
  - subst. rewrite filter_cons_True by done. cbn. lia.
  - rewrite filter_cons_False by congruence. cbn. lia.
Qed.

Lemma occurrences_elem_of (x : A) l : x ∈ l ↔ (0 < occurrences x l)%nat.
Proof.
  unfold occurrences. induction l as [| y l IH].
  - cbn. split; [by intros ?%elem_of_nil | lia].
  - destruct (decide (y = x)) as [-> | Hne].
    + rewrite filter_cons_True by done. cbn. split; [lia | left].
    + rewrite filter_cons_False by done. rewrite elem_of_cons, <- IH.
      naive_solver.
Qed.

Lemma tally_lookup l (y : A) :
  (list_to_map (tally l) : gmap A nat) !! y
  = if decide (y ∈ l) then Some (occurrences y l) else None.
Proof.
  induction l as [| x l IH] using rev_ind; [done |].
  rewrite tally_snoc, bump_lookup, occurrences_snoc.
  destruct (decide (y = x)) as [-> | Hne].
  - rewrite IH. rewrite (decide_True (P := x ∈ (l ++ [x])%list)) by set_solver.
    case_decide as Hin; [done |].
    cbn. f_equal. f_equal.
    destruct (occurrences x l) eqn:E; [done |].
    exfalso. apply Hin. apply occurrences_elem_of. lia.
  - rewrite IH. apply decide_ext. set_solver.
Qed.
End tally.

Lemma insert_desc_perm {A} (p : A * nat) l : insert_desc p l ≡ₚ p :: l.
Proof.
  induction l as [| p' l IH]; [done |]. cbn [insert_desc].
  destruct (p'.2 <? p.2)%nat; [done |]. rewrite IH. apply Permutation_swap.
Qed.

Lemma sort_desc_perm {A} (l acc : list (A * nat)) :
  foldl (λ acc p, insert_desc p acc) acc l ≡ₚ l ++ acc.
Proof.
  revert acc. induction l as [| p l IH]; intros acc; [done |].
  cbn [foldl]. rewrite IH, insert_desc_perm. symmetry. apply Permutation_middle.
Qed.

Lemma value_counts_lookup (series : list string) (x : string) :
  to_dict (value_counts series) !! x
  = if decide (x ∈ series) then Some (occurrences x series) else None.
Proof.
  unfold to_dict, value_counts. rewrite <- tally_lookup.
  f_equal. apply list_to_map_proper.
  - rewrite sort_desc_perm, app_nil_r. apply tally_NoDup.
  - by rewrite sort_desc_perm, app_nil_r.
Qed.

(** The claim of C2 as it is stated fails: on the empty table the response
    has no distribution at all, so none of them is an empty mapping. *)
Lemma analysis_empty_no_empty_mappings :
  ¬ (field "total_records" (data (DataAnalysisView_get [])) = Some (JInt 0)
     ∧ ∀ k, k ∈ distributions →
         field k (data (DataAnalysisView_get [])) = Some (JCounts ∅)).
Proof.
  intros [_ Hall].
  specialize (Hall "department_distribution").
  assert (field "department_distribution" (data (DataAnalysisView_get []))
          = None) as Hnone by reflexivity.
  rewrite Hnone in Hall. discriminate Hall.
  unfold distributions. apply list_elem_of_further, list_elem_of_here.
Qed.

(** C2, amended: on the empty table the analysis returns, with status 200
    and without raising, [total_records = 0] and the message "No data
    available", and none of the four distributions; in general
    [total_records] is the number of rows, and the distributions are in the
    response exactly when there is at least one row. *)
Theorem analysis_empty_table :
  DataAnalysisView_get []
  = {| data := [("total_records", JInt 0);
                ("message", JStr "No data available")];
       status := 200 |}
  ∧ (∀ k, k ∈ distributions →
       field k (data (DataAnalysisView_get [])) = None)
  ∧ (∀ employees,
       status (DataAnalysisView_get employees) = 200
       ∧ field "total_records" (data (DataAnalysisView_get employees))
         = Some (JInt (Z.of_nat (length employees))))
  ∧ (∀ employees k, k ∈ distributions →
       (is_Some (field k (data (DataAnalysisView_get employees)))
        ↔ employees ≠ [])).
Proof.
  assert (∀ k, k ∈ distributions →
            k = "checkin_vs_checkout" ∨ k = "department_distribution"
            ∨ k = "role_distribution" ∨ k = "daily_attendance") as Hk.
  { intros k Hin. unfold distributions in Hin.
    repeat (apply elem_of_cons in Hin as [-> | Hin]; [tauto |]).
    by apply elem_of_nil in Hin. }
  split; [done |]. split; [| split].
  - intros k Hin. destruct (Hk k Hin) as [-> | [-> | [-> | ->]]]; done.
  - intros [| e l]; done.
  - intros [| e l] k Hin.
    + destruct (Hk k Hin) as [-> | [-> | [-> | ->]]];
        (split; [intros [? ?]; done | done]).
    + destruct (Hk k Hin) as [-> | [-> | [-> | ->]]];
        (split; [done | intros _; eexists; reflexivity]).
Qed.

(** For a table with at least one row, each distribution by label maps
    every label of its column to its number of occurrences, and no other
    label. *)
Lemma department_distribution_counts (employees : list Employee) :
  employees ≠ [] →
  ∃ m, field "department_distribution"
         (data (DataAnalysisView_get employees)) = Some (JCounts m)
       ∧ ∀ x, m !! x = if decide (x ∈ department <$> employees)
                       then Some (occurrences x (department <$> employees))
                       else None.
Proof.
  intros Hne. destruct employees as [| e l]; [done |].
  eexists. split; [reflexivity |].
  intros x. cbn [df_rows]. apply value_counts_lookup.
Qed.

(** C7: for rows whose department fields are "A", "A", "B", the department
    distribution of the analysis is the mapping of "A" to 2 and "B" to 1. *)
Theorem department_distribution_AAB employees :
  department <$> employees = ["A"; "A"; "B"] →
  field "department_distribution" (data (DataAnalysisView_get employees))
  = Some (JCounts {[ "A" := 2%nat; "B" := 1%nat ]}).
Proof.
  intros Hdept. destruct employees as [| e l]; [done |].
  unfold DataAnalysisView_get. cbn [df_rows].
  rewrite Hdept. vm_compute. reflexivity.
Qed.

Lemma department_distribution_AAB_witness :
  field "department_distribution" (data (DataAnalysisView_get three_rows))
  = Some (JCounts {[ "A" := 2%nat; "B" := 1%nat ]}).
Proof.
  apply (department_distribution_AAB three_rows). vm_compute. reflexivity.
Defined.

(** C8: two rows created on the same calendar date, whatever their times of
    day, are counted under one key of [daily_attendance], the ISO form of
    that date, with count 2. *)
Theorem daily_attendance_same_date (r1 r2 : Employee) :
  date_of (time_posted r1) = date_of (time_posted r2) →
  field "daily_attendance" (data (DataAnalysisView_get [r1; r2]))
  = Some (JCounts {[ str_date (date_of (time_posted r1)) := 2%nat ]}).
Proof.
  intros Hdate. unfold DataAnalysisView_get. cbn [df_rows].
  cbn [fmap list_fmap]. rewrite <- Hdate.
  unfold groupby_size, tally. cbn [foldl bump].
  rewrite decide_True by done. cbn [foldl insert_by_date].
  unfold dict_by_str_date. cbn [foldl fst snd].
  reflexivity.
Qed.

Lemma daily_attendance_same_date_witness :
  time_of (at_time 2025 6 2 8 0 5) ≠ time_of (at_time 2025 6 2 17 30 0)
  ∧ field "daily_attendance"
      (data (DataAnalysisView_get
         [ employee 1 "A" "Engineer" "check-in" (at_time 2025 6 2 8 0 5);
           employee 2 "B" "Analyst" "check-out" (at_time 2025 6 2 17 30 0) ]))
    = Some (JCounts {[ "2025-06-02" := 2%nat ]}).
Proof.
  split; [discriminate |].
  apply (daily_attendance_same_date
    (employee 1 "A" "Engineer" "check-in" (at_time 2025 6 2 8 0 5))
    (employee 2 "B" "Analyst" "check-out" (at_time 2025 6 2 17 30 0))).
  reflexivity.
Defined.

(** ** The chart endpoints *)

Lemma view_shape ep B now_get now_save employees :
  ep ∈ urlpatterns →
  view ep B now_get now_save employees
  = endpoint_shape (chart_type ep) (run_plot (figure_of ep B employees))
      (error_text ep) B now_get now_save.
Proof.
  intros Hin. unfold urlpatterns in Hin.
  repeat (apply elem_of_cons in Hin as [-> | Hin]; [reflexivity |]).
  by apply elem_of_nil in Hin.
Qed.

Lemma cache_key_60 now chart_type :
  ∃ key, cache_key now chart_type 60 = Ok key.
Proof. unfold cache_key, bucket, truediv. cbn. eauto. Qed.

Lemma save_cached_chart_60 now chart_type (B : bytes) (fs : dir) :
  (save_cached_chart now chart_type B 60 fs).1 = Ok tt.
Proof.
  destruct (cache_key_60 now chart_type) as [key Hkey].
  destruct (save_cached_chart_spec now chart_type B 60 fs key Hkey)
    as (fs' & -> & _).
  done.
Qed.

Lemma get_cached_chart_60 now chart_type (fs : dir) :
  ∃ cached, get_cached_chart now chart_type 60 fs = (Ok cached, fs).
Proof.
  destruct (cache_key_60 now chart_type) as [key Hkey].
  eexists. by apply get_cached_chart_spec.
Qed.

(** What the error branch sends to the encoder. *)
Lemma error_image_encodes B text png :
  run_plot (error_image B text) = Ok png →
  encode B plain_opts (error_figure text) = Ok png.
Proof.
  unfold run_plot, error_image, bind, new_figure, plt, draw, savefig,
    plt_close, ret, error_figure.
  cbn [name args target].
  repeat (match goal with
          | |- context [raises B ?f ?c] => destruct (raises B f c)
          end; cbn; [discriminate |]).
  destruct (encode B plain_opts _); cbn; [| discriminate].
  by intros [= ->].
Qed.

Section endpoints.
Variables (B : backend) (now_get now_save : Q).
Variables (chart_type : string) (error_text : exn → string).
Variable fs : dir.
Variable cached : option bytes.
Hypothesis Hget :
  (get_cached_chart now_get chart_type 60 fs).1 = Ok cached.
Hypothesis Hmiss : truthy cached = false.

Lemma miss_get :
  get_cached_chart now_get chart_type 60 fs = (Ok cached, fs).
Proof using Hget.
  destruct (get_cached_chart_60 now_get chart_type fs) as [c Hc].
  rewrite Hc in Hget. cbn in Hget. injection Hget as ->. exact Hc.
Qed.

Lemma shape_render_raises e png :
  run_plot (error_image B (error_text e)) = Ok png →
  endpoint_shape chart_type (Raise e) error_text B now_get now_save fs
  = (Ok (HttpResponse_ png "image/png"), fs).
Proof using Hget Hmiss.
  intros Hpng. unfold endpoint_shape, bind at 1.
  rewrite miss_get, Hmiss.
  unfold try_except, bind, lift, ret. cbn. by rewrite Hpng.
Qed.

Lemma shape_render_raises_dir e :
  (endpoint_shape chart_type (Raise e) error_text B now_get now_save fs).2
  = fs.
Proof using Hget Hmiss.
  unfold endpoint_shape, bind at 1. rewrite miss_get, Hmiss.
  unfold try_except, bind, lift, ret. cbn.
  by destruct (run_plot (error_image B (error_text e))).
Qed.

Lemma shape_render_ok chart_data :
  endpoint_shape chart_type (Ok chart_data) error_text B now_get now_save fs
  = (Ok (HttpResponse_ chart_data "image/png"),
     (save_cached_chart now_save chart_type chart_data 60 fs).2).
Proof using Hget Hmiss.
  unfold endpoint_shape, bind at 1. rewrite miss_get, Hmiss.
  unfold try_except, bind at 1, lift. cbn beta iota.
  unfold bind at 1.
  pose proof (save_cached_chart_60 now_save chart_type chart_data fs) as Hs.
  destruct (save_cached_chart now_save chart_type chart_data 60 fs)
    as [r fs'].
  cbn in Hs. subst r. done.
Qed.
End endpoints.

(** The claim of C6 as it is stated fails: the [except] branch draws the
    error image outside any [try], so when drawing the chart raises and the
    [savefig] of the error image raises too, the endpoint raises and no
    response of status 200 is returned. *)
Lemma render_failure_can_raise :
  run_plot (figure_of departments_route broken_pie_and_savefig
              (Ok three_rows))
  = Raise (PyErr "ValueError" "x must be 1D")
  ∧ view departments_route broken_pie_and_savefig (at_second 1700000040)
      (at_second 1700000041) (Ok three_rows) ∅
    = (Raise (PyErr "RuntimeError" "libpng signaled error"), ∅)
  ∧ ¬ (∀ ep B now_get now_save employees (fs : dir) cached e,
         ep ∈ urlpatterns →
         (get_cached_chart now_get (chart_type ep) 60 fs).1 = Ok cached →
         truthy cached = false →
         run_plot (figure_of ep B employees) = Raise e →
         ∃ response,
           (view ep B now_get now_save employees fs).1 = Ok response
           ∧ status_code response = 200
           ∧ content_type response = "image/png").
Proof.
  split; [vm_compute; reflexivity |]. split; [vm_compute; reflexivity |].
  intros Hclaim.
  destruct (Hclaim departments_route broken_pie_and_savefig
              (at_second 1700000040) (at_second 1700000041) (Ok three_rows)
              ∅ None (PyErr "ValueError" "x must be 1D"))
    as (response & Hview & _).
  - apply list_elem_of_further, list_elem_of_here.
  - vm_compute. reflexivity.
  - reflexivity.
  - vm_compute. reflexivity.
  - vm_compute in Hview. discriminate Hview.
Qed.

(** C6, amended: for each of the five chart endpoints, when the look-up
    misses and drawing the chart raises an exception [e], the endpoint
    returns, provided the error image itself can be drawn, a response of
    status 200 and content type image/png whose body is the encoding of a
    figure that carries the error text, which ends with [str(e)], and it
    leaves the cache directory as it was. *)
Theorem render_failure_gives_error_png ep B now_get now_save employees
    (fs : dir) cached e png :
  ep ∈ urlpatterns →
  (get_cached_chart now_get (chart_type ep) 60 fs).1 = Ok cached →
  truthy cached = false →
  run_plot (figure_of ep B employees) = Raise e →
  run_plot (error_image B (error_text ep e)) = Ok png →
  view ep B now_get now_save employees fs
  = (Ok {| content := png; content_type := "image/png";
           status_code := 200 |}, fs)
  ∧ encode B plain_opts (error_figure (error_text ep e)) = Ok png
  ∧ ∃ prefix, error_text ep e = prefix +:+ str_exn e.
Proof.
  intros Hin Hget Hmiss Hraise Hpng. split; [| split].
  - rewrite (view_shape ep B now_get now_save employees Hin), Hraise.
    by apply (shape_render_raises B now_get now_save (chart_type ep)
                (error_text ep) fs cached Hget Hmiss).
  - by apply error_image_encodes.
  - unfold urlpatterns in Hin.
    repeat (apply elem_of_cons in Hin as [-> | Hin];
            [eexists; reflexivity |]).
    by apply elem_of_nil in Hin.
Qed.

Lemma render_failure_gives_error_png_witness :
  view departments_route broken_pie (at_second 1700000040)
    (at_second 1700000041) (Ok three_rows) ∅
  = (Ok {| content := [x89; x50; x4e; x47; x2e; x2e; x2e];
           content_type := "image/png"; status_code := 200 |}, ∅)
  ∧ encode broken_pie plain_opts
      (error_figure "Error generating chart: x must be 1D")
    = Ok [x89; x50; x4e; x47; x2e; x2e; x2e]
  ∧ ∃ prefix, "Error generating chart: x must be 1D"
              = prefix +:+ "x must be 1D".
Proof.
  apply (render_failure_gives_error_png departments_route broken_pie
           (at_second 1700000040) (at_second 1700000041) (Ok three_rows)
           ∅ None (PyErr "ValueError" "x must be 1D")).
  - apply list_elem_of_further, list_elem_of_here.
  - vm_compute. reflexivity.
  - reflexivity.
  - vm_compute. reflexivity.
  - vm_compute. reflexivity.
Defined.

Lemma shape_hit B now_get now_save chart_type error_text render
    (fs : dir) cached :
  (get_cached_chart now_get chart_type 60 fs).1 = Ok cached →
  truthy cached = true →
  endpoint_shape chart_type render error_text B now_get now_save fs
  = (Ok (HttpResponse_ (default [] cached) "image/png"), fs).
Proof.
  intros Hget Hhit. unfold endpoint_shape, bind at 1.
  by rewrite (miss_get now_get chart_type fs cached Hget), Hhit.
Qed.

(** C10: for each of the five chart endpoints, when the look-up misses and
    drawing the chart raises an exception that reaches the outer handler,
    the endpoint leaves the cache directory as it was: the error image is
    not stored.  The directory changes on one path only: when the look-up
    misses and drawing returns the bytes of a chart (a placeholder drawn
    without an exception included), the endpoint returns them and leaves
    the directory as the store of those bytes under its chart type does, a
    store that completes.  On a hit the endpoint returns the cached bytes
    and leaves the directory as it was. *)
Theorem failed_render_not_cached ep B now_get now_save employees
    (fs : dir) cached :
  ep ∈ urlpatterns →
  (get_cached_chart now_get (chart_type ep) 60 fs).1 = Ok cached →
  if truthy cached then
    view ep B now_get now_save employees fs
    = (Ok (HttpResponse_ (default [] cached) "image/png"), fs)
  else
    match run_plot (figure_of ep B employees) with
    | Raise e => (view ep B now_get now_save employees fs).2 = fs
    | Ok chart_data =>
        view ep B now_get now_save employees fs
        = (Ok (HttpResponse_ chart_data "image/png"),
           (save_cached_chart now_save (chart_type ep) chart_data 60 fs).2)
        ∧ (save_cached_chart now_save (chart_type ep) chart_data 60 fs).1
          = Ok tt
    end.
Proof.
  intros Hin Hget.
  rewrite (view_shape ep B now_get now_save employees Hin).
  destruct (truthy cached) eqn:Hmiss; [by apply shape_hit |].
  destruct (run_plot (figure_of ep B employees)) as [chart_data | e].
  - split; [| apply save_cached_chart_60].
    by apply (shape_render_ok B now_get now_save (chart_type ep)
                (error_text ep) fs cached Hget Hmiss).
  - by apply (shape_render_raises_dir B now_get now_save (chart_type ep)
                (error_text ep) fs cached Hget Hmiss).
Qed.

Lemma failed_render_not_cached_witness :
  (view departments_route broken_pie (at_second 1700000040)
     (at_second 1700000041) (Ok three_rows) stale_departments).2
  = stale_departments.
Proof.
  apply (failed_render_not_cached departments_route broken_pie
           (at_second 1700000040) (at_second 1700000041) (Ok three_rows)
           stale_departments None).
  - apply list_elem_of_further, list_elem_of_here.
  - vm_compute. reflexivity.
Defined.

(** Whenever the error image can be drawn, each of the five endpoints
    returns a response, of status 200 and content type image/png, on every
    path: hit, chart drawn, drawing failed. *)
Lemma endpoint_always_png ep B now_get now_save employees (fs : dir) :
  ep ∈ urlpatterns →
  (∀ text, ∃ png, run_plot (error_image B text) = Ok png) →
  ∃ response fs',
    view ep B now_get now_save employees fs = (Ok response, fs')
    ∧ status_code response = 200
    ∧ content_type response = "image/png".
Proof.
  intros Hin Herr.
  destruct (get_cached_chart_60 now_get (chart_type ep) fs) as [cached Hc].
  assert ((get_cached_chart now_get (chart_type ep) 60 fs).1 = Ok cached)
    as Hget by (by rewrite Hc).
  rewrite (view_shape ep B now_get now_save employees Hin).
  destruct (truthy cached) eqn:Hmiss.
  { rewrite (shape_hit _ _ _ _ _ _ _ cached Hget Hmiss). by eexists _, _. }
  destruct (run_plot (figure_of ep B employees)) as [chart_data | e].
  - rewrite (shape_render_ok B now_get now_save (chart_type ep)
               (error_text ep) fs cached Hget Hmiss).
    by eexists _, _.
  - destruct (Herr (error_text ep e)) as [png Hpng].
    rewrite (shape_render_raises B now_get now_save (chart_type ep)
               (error_text ep) fs cached Hget Hmiss e png Hpng).
    by eexists _, _.
Qed.

(** The "no data" placeholder of an empty table is drawn on the success
    path, so it is stored. *)
Example no_data_placeholder_is_stored :
  department_chart broken_pie (at_second 1700000040) (at_second 1700000041)
    (Ok []) stale_departments
  = (Ok (HttpResponse_ [x89; x50; x4e; x47; x2e; x2e; x2e] "image/png"),
     {[ "chart_departments_28333334.png"
        := [x89; x50; x4e; x47; x2e; x2e; x2e] ]}).
Proof. vm_compute. reflexivity. Qed.

(** An exception that the inner handler of the attendance chart catches
    does not reach the outer handler: the figure with the error text is
    stored like any chart. *)
Example inner_error_is_stored :
  run_plot (attendance_figure broken_bar (Ok three_rows))
  = encode broken_bar chart_opts
      [Call None "figure" [Num 12; Num 8];
       Call None "text" [Str "Error: unhashable type"];
       Call None "tight_layout" []]
  ∧ (attendance_chart broken_bar (at_second 1700000040)
       (at_second 1700000041) (Ok three_rows) ∅).2
    = {[ "chart_attendance_28333334.png"
         := [x89; x50; x4e; x47; x2e; x2e; x2e] ]}.
Proof. split; vm_compute; reflexivity. Qed.

(** * Further properties *)

Lemma cache_key_zero now chart_type :
  cache_key now chart_type 0 = Raise ZeroDivisionError.
Proof. reflexivity. Qed.

(** X1: a look-up never changes the directory, whatever it returns or
    raises.  With a zero window the look-up and the store both raise
    [ZeroDivisionError], the store before its clean-up: the directory is
    left as it was. *)
Theorem zero_window_raises_before_cleanup now chart_type (B : bytes) w
    (fs : dir) :
  (get_cached_chart now chart_type w fs).2 = fs
  ∧ get_cached_chart now chart_type 0 fs = (Raise ZeroDivisionError, fs)
  ∧ save_cached_chart now chart_type B 0 fs = (Raise ZeroDivisionError, fs).
Proof.
  split; [| split].
  - destruct (cache_key now chart_type w) as [key | e] eqn:Hkey.
    + by rewrite (get_cached_chart_spec _ _ _ _ key Hkey).
    + by rewrite (get_cached_chart_raise _ _ _ _ e Hkey).
  - apply get_cached_chart_raise, cache_key_zero.
  - apply save_cached_chart_raise, cache_key_zero.
Qed.

(** The bucket of a clock reading: the window it falls in. *)
Lemma bucket_interval (now : Q) (w b : Z) :
  (0 <= now)%Q → 0 < w →
  bucket now w = Ok b
  ↔ (inject_Z (b * w) <= now)%Q ∧ (now < inject_Z ((b + 1) * w))%Q.
Proof.
  intros Hnow Hw. rewrite (bucket_floor now w Hnow Hw).
  destruct now as [n d]. destruct w as [| w | w]; try lia.
  unfold Qfloor, Qdiv, Qmult, Qinv, inject_Z, Qle, Qlt in *. simpl in *.
  assert (0 < Z.pos (d * w)) as Hpos by lia.
  pose proof (Z.div_mod n (Z.pos (d * w)) ltac:(lia)) as Hdm.
  pose proof (Z.mod_pos_bound n (Z.pos (d * w)) Hpos) as Hmod.
  rewrite Pos2Z.inj_mul in *. rewrite !Z.mul_1_r in *.
  generalize dependent (n `div` (Z.pos d * Z.pos w)).
  generalize dependent (n `mod` (Z.pos d * Z.pos w)).
  intros m Hmod qt Hdm. split.
  - intros [= <-]. nia.
  - intros [Hlo Hhi]. f_equal. nia.
Qed.

Lemma cache_key_form now chart_type w key :
  cache_key now chart_type w = Ok key →
  ∃ b, bucket now w = Ok b
       ∧ key = "chart_" +:+ chart_type +:+ "_" +:+ str_int b
       ∧ key +:+ ".png" = entry_name chart_type b.
Proof.
  unfold cache_key. destruct (bucket now w) as [b | e]; [| done].
  intros [= <-]. exists b. split; [done |]. split; [done |].
  unfold entry_name. by rewrite !append_assoc.
Qed.

Lemma entry_name_of_chart_type chart_type b :
  of_chart_type chart_type (entry_name chart_type b) = true.
Proof.
  unfold of_chart_type, entry_name, startswith.
  rewrite !prefix_append_cancel. exact (startswith_append "_" _).
Qed.

(** A store leaves alone every file whose name does not begin with the
    prefix of its chart type. *)
Lemma store_keeps_other_names chart_type w (B : bytes) now (fs fs' : dir) f :
  save_cached_chart now chart_type B w fs = (Ok tt, fs') →
  of_chart_type chart_type f = false → fs' !! f = fs !! f.
Proof.
  intros Hsave Hf.
  destruct (store_effect _ _ _ _ _ _ Hsave) as (key & Hkey & _ & _ & Hkeep).
  destruct (cache_key_form _ _ _ _ Hkey) as (b & _ & _ & Hname).
  apply Hkeep.
  - rewrite Hname. intros ->.
    by rewrite entry_name_of_chart_type in Hf.
  - unfold is_old. fold (of_chart_type chart_type f). by rewrite Hf.
Qed.

Lemma prefix_cons_ne (a b : Ascii.ascii) s t :
  a ≠ b → String.prefix (String a s) (String b t) = false.
Proof. intros Hne. simpl. by destruct (Ascii.ascii_dec a b). Qed.

Lemma chart_types_disjoint chart_type chart_type' b :
  chart_type ∈ chart_types → chart_type' ∈ chart_types →
  chart_type ≠ chart_type' →
  of_chart_type chart_type (entry_name chart_type' b) = false.
Proof.
  intros Hin Hin' Hne.
  unfold of_chart_type, entry_name, startswith.
  rewrite prefix_append_cancel.
  unfold chart_types, urlpatterns in Hin, Hin'. cbn in Hin, Hin'.
  repeat (apply elem_of_cons in Hin as [-> | Hin]);
    try (by apply elem_of_nil in Hin);
    repeat (apply elem_of_cons in Hin' as [-> | Hin']);
    try (by apply elem_of_nil in Hin');
    try done;
    rewrite !append_cons; by apply prefix_cons_ne.
Qed.

(** X2: a store under one of the chart types of the routes leaves the
    entries of every other one of them as they were, for every bucket, and
    so the outcome of every look-up of the other chart type. *)
Theorem store_isolated_between_chart_types chart_type chart_type' w
    (B : bytes) now (fs fs' : dir) :
  chart_type ∈ chart_types → chart_type' ∈ chart_types →
  chart_type ≠ chart_type' →
  save_cached_chart now chart_type B w fs = (Ok tt, fs') →
  (∀ b, entry fs' chart_type' b = entry fs chart_type' b)
  ∧ (∀ now' w', (get_cached_chart now' chart_type' w' fs').1
                = (get_cached_chart now' chart_type' w' fs).1).
Proof.
  intros Hin Hin' Hne Hsave.
  assert (∀ b, entry fs' chart_type' b = entry fs chart_type' b) as Hentry.
  { intros b. unfold entry.
    apply (store_keeps_other_names _ _ _ _ _ _ _ Hsave).
    by apply chart_types_disjoint. }
  split; [done |]. intros now' w'.
  destruct (cache_key now' chart_type' w') as [key | e] eqn:Hkey.
  - rewrite !(get_cached_chart_spec _ _ _ _ key Hkey). cbn [fst].
    destruct (cache_key_form _ _ _ _ Hkey) as (b & _ & _ & ->).
    f_equal. apply Hentry.
  - by rewrite !(get_cached_chart_raise _ _ _ _ e Hkey).
Qed.

Lemma store_isolated_between_chart_types_witness :
  (∀ b, entry {[ "chart_roles_28333334.png" := png_3;
                 "chart_departments_28333333.png" := png_2 ]}
          "departments" b
        = entry roles_and_departments "departments" b)
  ∧ (∀ now' w',
       (get_cached_chart now' "departments" w'
          {[ "chart_roles_28333334.png" := png_3;
             "chart_departments_28333333.png" := png_2 ]}).1
       = (get_cached_chart now' "departments" w' roles_and_departments).1).
Proof.
  apply (store_isolated_between_chart_types "roles" "departments" 60 png_3
           (at_second 1700000040) roles_and_departments).
  - apply list_elem_of_further, list_elem_of_further, list_elem_of_here.
  - apply list_elem_of_further, list_elem_of_here.
  - discriminate.
  - vm_compute. reflexivity.
Defined.

Lemma append_length (s t : string) :
  String.length (s +:+ t) = (String.length s + String.length t)%nat.
Proof.
  induction s as [| c s IH]; [done |]. rewrite append_cons. cbn. by rewrite IH.
Qed.

Lemma append_inj_r (s1 s2 t : string) : s1 +:+ t = s2 +:+ t → s1 = s2.
Proof.
  revert s2. induction s1 as [| c s1 IH]; intros [| c' s2] Heq; [done | | |].
  - exfalso. apply (f_equal String.length) in Heq.
    rewrite !append_length in Heq. cbn in Heq. lia.
  - exfalso. apply (f_equal String.length) in Heq.
    rewrite !append_length in Heq. cbn in Heq. lia.
  - rewrite !append_cons in Heq. injection Heq as -> Heq.
    f_equal. by apply IH.
Qed.

Lemma entry_name_inj chart_type b b' :
  entry_name chart_type b = entry_name chart_type b' → b = b'.
Proof.
  unfold entry_name. intros Heq.
  do 3 apply (inj (String.append _)) in Heq.
  apply append_inj_r in Heq. by apply (inj pretty) in Heq.
Qed.

(** X3: with one positive window, a store made at least one window after
    an earlier store of the same chart type falls in a greater bucket,
    removes the entry the earlier store wrote and leaves its own. *)
Theorem later_store_replaces_earlier chart_type w (B1 B2 : bytes)
    (now1 now2 : Q) (fs fs1 fs2 : dir) (b1 b2 : Z) :
  (0 <= now1)%Q → 0 < w → (now1 + inject_Z w <= now2)%Q →
  bucket now1 w = Ok b1 → bucket now2 w = Ok b2 →
  save_cached_chart now1 chart_type B1 w fs = (Ok tt, fs1) →
  save_cached_chart now2 chart_type B2 w fs1 = (Ok tt, fs2) →
  b1 < b2
  ∧ entry fs1 chart_type b1 = Some B1
  ∧ entry fs2 chart_type b1 = None
  ∧ entry fs2 chart_type b2 = Some B2.
Proof.
  intros Hnow1 Hw Hlater Hb1 Hb2 Hsave1 Hsave2.
  assert (0 <= now2)%Q as Hnow2.
  { eapply Qle_trans; [| exact Hlater].
    rewrite <- (Qplus_0_r 0). apply Qplus_le_compat; [done |].
    unfold Qle. simpl. lia. }
  apply (bucket_interval now1 w b1 Hnow1 Hw) in Hb1 as Hi1.
  apply (bucket_interval now2 w b2 Hnow2 Hw) in Hb2 as Hi2.
  assert (0 ≤ b1 < b2)%Z as Hlt.
  { destruct Hi1 as [Hlo1 Hhi1]. destruct Hi2 as [Hlo2 Hhi2].
    destruct now1 as [n1 d1], now2 as [n2 d2].
    unfold Qle, Qlt, Qplus, inject_Z in *. simpl in *. nia. }
  split; [lia |]. split.
  - destruct (store_effect _ _ _ _ _ _ Hsave1) as (key & Hkey & Hnew & _).
    destruct (cache_key_bucket _ _ _ _ _ Hb1 Hkey) as [_ Hname].
    unfold entry. by rewrite <- Hname.
  - destruct (store_removes_smaller_buckets _ _ _ _ _ _ b2 b1 Hsave2 Hb2 Hlt)
      as [Hnew Hgone].
    done.
Qed.

Lemma later_store_replaces_earlier_witness :
  28333334 < 28333335
  ∧ entry {[ "chart_roles_28333334.png" := png_1 ]} "roles" 28333334
    = Some png_1
  ∧ entry {[ "chart_roles_28333335.png" := png_2 ]} "roles" 28333334 = None
  ∧ entry {[ "chart_roles_28333335.png" := png_2 ]} "roles" 28333335
    = Some png_2.
Proof.
  apply (later_store_replaces_earlier "roles" 60 png_1 png_2
           (at_second 1700000040) (at_second 1700000100) two_role_entries).
  - vm_compute. discriminate.
  - lia.
  - vm_compute. discriminate.
  - vm_compute. reflexivity.
  - vm_compute. reflexivity.
  - vm_compute. reflexivity.
  - vm_compute. reflexivity.
Defined.

(** X4: from a directory that holds no file of the chart type, two stores
    of which the second has the greater bucket leave exactly one entry of
    the chart type, that of the second store with its bytes, no other file
    of the chart type, and every other file as it was. *)
Theorem clean_directory_two_stores chart_type (B1 B2 : bytes) w w'
    now1 now2 (fs fs1 fs2 : dir) (b1 b2 : Z) :
  (∀ f, of_chart_type chart_type f = true → fs !! f = None) →
  save_cached_chart now1 chart_type B1 w fs = (Ok tt, fs1) →
  save_cached_chart now2 chart_type B2 w' fs1 = (Ok tt, fs2) →
  bucket now1 w = Ok b1 → bucket now2 w' = Ok b2 → (0 ≤ b1 < b2)%Z →
  (∀ b, entry fs2 chart_type b = if decide (b = b2) then Some B2 else None)
  ∧ (∀ f, of_chart_type chart_type f = true → is_Some (fs2 !! f) →
          f = entry_name chart_type b2)
  ∧ (∀ f, of_chart_type chart_type f = false → fs2 !! f = fs !! f).
Proof.
  intros Hclean Hsave1 Hsave2 Hb1 Hb2 Hlt.
  pose proof (two_stores_from_clean_directory _ _ _ _ _ _ _ _ _ _ _ _
                Hclean Hsave1 Hsave2 Hb1 Hb2 Hlt) as Hfiles.
  split; [| split].
  - intros b. unfold entry.
    rewrite Hfiles by apply entry_name_of_chart_type.
    destruct (decide (b = b2)) as [-> | Hne]; [by rewrite decide_True |].
    rewrite decide_False; [done |]. by intros ?%entry_name_inj.
  - intros f Hf [x Hx]. rewrite (Hfiles f Hf) in Hx.
    by case_decide.
  - intros f Hf.
    rewrite (store_keeps_other_names _ _ _ _ _ _ _ Hsave2 Hf).
    apply (store_keeps_other_names _ _ _ _ _ _ _ Hsave1 Hf).
Qed.

Lemma clean_directory_two_stores_witness :
  entry {[ "chart_roles_28333333.png" := png_1;
           "chart_departments_28333334.png" := png_3 ]}
    "departments" 28333334 = Some png_3.
Proof.
  refine (proj1 (clean_directory_two_stores "departments" png_2 png_3 600 60
           (at_second 1700000041) (at_second 1700000042)
           one_roles_entry
           {[ "chart_roles_28333333.png" := png_1;
              "chart_departments_2833333.png" := png_2 ]}
           {[ "chart_roles_28333333.png" := png_1;
              "chart_departments_28333334.png" := png_3 ]}
           2833333 28333334 _ _ _ _ _ _) 28333334).
  - intros f Hf. apply lookup_singleton_None. intros <-. by vm_compute in Hf.
  - vm_compute. reflexivity.
  - vm_compute. reflexivity.
  - vm_compute. reflexivity.
  - vm_compute. reflexivity.
  - lia.
Defined.

(** X5: a second store in the same bucket overwrites: storing [B1] and
    then [B2] for a chart type in one bucket has the outcome and leaves the
    directory of storing [B2] alone. *)
Theorem last_store_wins chart_type w (B1 B2 : bytes) now1 now2
    (fs fs1 : dir) :
  bucket now2 w = bucket now1 w →
  save_cached_chart now1 chart_type B1 w fs = (Ok tt, fs1) →
  save_cached_chart now2 chart_type B2 w fs1
  = save_cached_chart now2 chart_type B2 w fs.
Proof.
  intros Hsame Hsave1.
  destruct (cache_key now1 chart_type w) as [key | e] eqn:Hkey1.
  2: { by rewrite (save_cached_chart_raise _ _ _ _ _ e Hkey1) in Hsave1. }
  assert (cache_key now2 chart_type w = Ok key) as Hkey2.
  { unfold cache_key in *. by rewrite Hsame. }
  destruct (save_cached_chart_spec now1 chart_type B1 w fs key Hkey1)
    as (fs1' & Hs1 & Hfs1).
  rewrite Hs1 in Hsave1. injection Hsave1 as ->.
  destruct (save_cached_chart_spec now2 chart_type B2 w fs1 key Hkey2)
    as (fs2 & -> & Hfs2).
  destruct (save_cached_chart_spec now2 chart_type B2 w fs key Hkey2)
    as (fs2' & -> & Hfs2').
  f_equal. apply map_eq. intros f. rewrite Hfs2, Hfs2', Hfs1.
  case_decide; [done |]. by destruct (is_old chart_type key f).
Qed.

Lemma last_store_wins_witness :
  save_cached_chart (at_second 1700000099) "roles" png_2 60
    {[ "chart_roles_28333334.png" := png_1 ]}
  = save_cached_chart (at_second 1700000099) "roles" png_2 60
      two_role_entries.
Proof.
  apply (last_store_wins "roles" 60 png_1 png_2 (at_second 1700000040)
           (at_second 1700000099) two_role_entries).
  - vm_compute. reflexivity.
  - vm_compute. reflexivity.
Defined.

(** X6: the bytes of a store that completes are returned by every look-up
    of the chart type with the same window whose clock reading lies in the
    window of the store's bucket [b], from [b * w] up to, not including,
    [(b + 1) * w]. *)
Theorem entry_served_until_window_ends chart_type w (B : bytes)
    (now_store now_lookup : Q) (fs fs' : dir) (b : Z) :
  (0 <= now_store)%Q → 0 < w →
  save_cached_chart now_store chart_type B w fs = (Ok tt, fs') →
  bucket now_store w = Ok b →
  (inject_Z (b * w) <= now_lookup)%Q →
  (now_lookup < inject_Z ((b + 1) * w))%Q →
  get_cached_chart now_lookup chart_type w fs' = (Ok (Some B), fs').
Proof.
  intros Hnow Hw Hsave Hb Hlo Hhi.
  apply (bucket_interval now_store w b Hnow Hw) in Hb as Hi.
  assert (0 <= now_lookup)%Q as Hnow'.
  { eapply Qle_trans; [| exact Hlo].
    destruct Hi as [_ Hi]. destruct now_store as [n d].
    unfold Qle, Qlt, inject_Z in *. simpl in *.
    destruct (decide (0 ≤ b)%Z) as [? | Hneg]; [nia |]. exfalso.
    assert ((b + 1) * w ≤ 0)%Z by nia.
    assert ((b + 1) * w * Z.pos d ≤ 0)%Z by nia. lia. }
  assert (bucket now_lookup w = Ok b) as Hb'.
  { by apply bucket_interval. }
  destruct (store_effect _ _ _ _ _ _ Hsave) as (key & Hkey & Hnew & _).
  assert (cache_key now_lookup chart_type w = Ok key) as Hkey'.
  { unfold cache_key in *. rewrite Hb in Hkey. by rewrite Hb'. }
  by rewrite (get_cached_chart_spec _ _ _ _ key Hkey'), Hnew.
Qed.

Lemma entry_served_until_window_ends_witness :
  get_cached_chart (1700000099999 # 1000) "roles" 60
    {[ "chart_roles_28333334.png" := png_3 ]}
  = (Ok (Some png_3), {[ "chart_roles_28333334.png" := png_3 ]}).
Proof.
  apply (entry_served_until_window_ends "roles" 60 png_3
           (at_second 1700000040) (1700000099999 # 1000) two_role_entries _
           28333334).
  - vm_compute. discriminate.
  - lia.
  - vm_compute. reflexivity.
  - vm_compute. reflexivity.
  - vm_compute. discriminate.
  - vm_compute. reflexivity.
Defined.

(** X7: from a directory that holds no file of the chart type, a look-up
    made one whole window or more after a store finds nothing: a chart is
    served for at most [cache_timeout] seconds. *)
Theorem entry_expires_after_window chart_type w (B : bytes)
    (now_store now_lookup : Q) (fs fs' : dir) :
  (0 <= now_store)%Q → 0 < w →
  (∀ f, of_chart_type chart_type f = true → fs !! f = None) →
  save_cached_chart now_store chart_type B w fs = (Ok tt, fs') →
  (now_store + inject_Z w <= now_lookup)%Q →
  get_cached_chart now_lookup chart_type w fs' = (Ok None, fs').
Proof.
  intros Hnow Hw Hclean Hsave Hlater.
  assert (0 <= now_lookup)%Q as Hnow'.
  { eapply Qle_trans; [| exact Hlater].
    rewrite <- (Qplus_0_r 0). apply Qplus_le_compat; [done |].
    unfold Qle. simpl. lia. }
  pose proof (bucket_floor now_store w Hnow Hw) as Hb.
  pose proof (bucket_floor now_lookup w Hnow' Hw) as Hb'.
  set (b := Qfloor (now_store / inject_Z w)) in Hb.
  set (b' := Qfloor (now_lookup / inject_Z w)) in Hb'.
  apply (bucket_interval now_store w b Hnow Hw) in Hb as Hi.
  apply (bucket_interval now_lookup w b' Hnow' Hw) in Hb' as Hi'.
  assert (b < b') as Hlt.
  { destruct Hi as [Hlo1 Hhi1]. destruct Hi' as [Hlo2 Hhi2].
    destruct now_store as [n1 d1], now_lookup as [n2 d2].
    unfold Qle, Qlt, Qplus, inject_Z in *. simpl in *. nia. }
  destruct (store_effect _ _ _ _ _ _ Hsave)
    as (key & Hkey & _ & Hold & Hkeep).
  destruct (cache_key_bucket _ _ _ _ _ Hb Hkey) as [_ Hname].
  destruct (cache_key_entry_name now_lookup chart_type w b' Hb')
    as (key' & Hkey' & Hname').
  rewrite (get_cached_chart_spec _ _ _ _ key' Hkey'), Hname'.
  do 2 f_equal.
  destruct (is_old chart_type key (entry_name chart_type b')) eqn:Ho.
  - by apply Hold.
  - rewrite Hkeep; [| | done].
    + apply Hclean, entry_name_of_chart_type.
    + rewrite Hname. intros ?%entry_name_inj. lia.
Qed.

Lemma entry_expires_after_window_witness :
  get_cached_chart (at_second 1700000100) "departments" 60
    {[ "chart_roles_28333333.png" := png_1;
       "chart_departments_28333334.png" := png_2 ]}
  = (Ok None, {[ "chart_roles_28333333.png" := png_1;
                 "chart_departments_28333334.png" := png_2 ]}).
Proof.
  apply (entry_expires_after_window "departments" 60 png_2
           (at_second 1700000040) (at_second 1700000100) one_roles_entry).
  - vm_compute. discriminate.
  - lia.
  - intros f Hf. apply lookup_singleton_None. intros <-. by vm_compute in Hf.
  - vm_compute. reflexivity.
  - vm_compute. discriminate.
Defined.

Lemma bump_sum {A} `{EqDecision A} (x : A) (acc : list (A * nat)) :
  sum_list (bump x acc).*2 = S (sum_list acc.*2).
Proof.
  induction acc as [| [y n] acc IH]; [done |]. cbn [bump].
  destruct (decide (x = y)); cbn; [done |]. rewrite IH. lia.
Qed.

Lemma tally_sum {A} `{EqDecision A} (l : list A) :
  sum_list (tally l).*2 = length l.
Proof.
  induction l as [| x l IH] using rev_ind; [done |].
  unfold tally in *. rewrite foldl_app. cbn [foldl].
  rewrite bump_sum, IH, length_app. cbn. lia.
Qed.

Lemma value_counts_perm (series : list string) :
  value_counts series ≡ₚ tally series.
Proof. unfold value_counts. by rewrite sort_desc_perm, app_nil_r. Qed.

Lemma to_dict_value_counts_sum (series : list string) :
  sum_list (map_to_list (to_dict (value_counts series))).*2 = length series.
Proof.
  unfold to_dict.
  rewrite map_to_list_to_map.
  - by rewrite value_counts_perm, tally_sum.
  - rewrite value_counts_perm. apply tally_NoDup.
Qed.

(** X8: for a table with at least one row, each of the three
    distributions by label of the analysis (check-in vs check-out,
    department, role) maps every label of its column to its number of
    occurrences and holds no other label, and its counts add up to the
    number of rows. *)
Theorem label_distribution_counts k (col : Employee → string) employees :
  (k, col) ∈ label_columns → employees ≠ [] →
  ∃ m, field k (data (DataAnalysisView_get employees)) = Some (JCounts m)
       ∧ (∀ x, m !! x = if decide (x ∈ col <$> employees)
                        then Some (occurrences x (col <$> employees))
                        else None)
       ∧ sum_list (map_to_list m).*2 = length employees.
Proof.
  intros Hin Hne. destruct employees as [| e l]; [done |].
  exists (to_dict (value_counts (col <$> e :: l))). split; [| split].
  - unfold label_columns in Hin.
    repeat (apply elem_of_cons in Hin as [Heq | Hin];
            [injection Heq as -> ->; reflexivity |]).
    by apply elem_of_nil in Hin.
  - intros x. apply value_counts_lookup.
  - by rewrite to_dict_value_counts_sum, length_fmap.
Qed.

Lemma label_distribution_counts_witness :
  ∃ m, field "role_distribution" (data (DataAnalysisView_get three_rows))
       = Some (JCounts m)
       ∧ (∀ x, m !! x = if decide (x ∈ role <$> three_rows)
                        then Some (occurrences x (role <$> three_rows))
                        else None)
       ∧ sum_list (map_to_list m).*2 = length three_rows.
Proof.
  apply (label_distribution_counts "role_distribution" role three_rows).
  - apply list_elem_of_further, list_elem_of_further, list_elem_of_here.
  - discriminate.
Defined.

Lemma append_nil_l (s : string) : "" +:+ s = s.
Proof. reflexivity. Qed.

Lemma pretty_N_go_length_le (k : nat) (x : N) (s : string) :
  (x < 10 ^ N.of_nat k)%N →
  (String.length (pretty_N_go x s) ≤ String.length s + k)%nat.
Proof.
  revert x s. induction k as [| k IH]; intros x s Hx.
  - assert (x = 0%N) as -> by (cbn in Hx; lia). rewrite pretty_N_go_0. lia.
  - destruct (decide (x = 0)%N) as [-> | Hne].
    { rewrite pretty_N_go_0. lia. }
    rewrite pretty_N_go_step by lia.
    etrans; [apply IH |].
    + rewrite Nat2N.inj_succ, N.pow_succ_r' in Hx.
      apply N.Div0.div_lt_upper_bound. lia.
    + cbn. lia.
Qed.

Lemma str_int_length_le (w : nat) (n : Z) :
  (1 ≤ w)%nat → (0 ≤ n < 10 ^ Z.of_nat w)%Z →
  (String.length (str_int n) ≤ w)%nat.
Proof.
  intros Hw Hn. unfold str_int. destruct n as [| p | p]; [cbn; lia | | lia].
  unfold pretty, pretty_Z, pretty, pretty_positive, pretty, pretty_N.
  rewrite decide_False by done.
  etrans; [apply (pretty_N_go_length_le w) |]; [| cbn; lia].
  apply N2Z.inj_lt. rewrite N2Z.inj_pow, nat_N_Z. cbn. lia.
Qed.

Lemma zeros_length (k : nat) : String.length (zeros k) = k.
Proof.
  induction k as [| k IH]; [done |]. cbn [zeros].
  rewrite append_cons, append_nil_l. cbn. by rewrite IH.
Qed.

Lemma zero_padded_length (w : nat) (n : Z) :
  (1 ≤ w)%nat → (0 ≤ n < 10 ^ Z.of_nat w)%Z →
  String.length (zero_padded w n) = w.
Proof.
  intros Hw Hn. unfold zero_padded.
  pose proof (str_int_length_le w n Hw Hn).
  rewrite append_length, zeros_length. lia.
Qed.

Lemma dec_val_zeros (k : nat) (s : string) :
  dec_val 0 (zeros k +:+ s) = dec_val 0 s.
Proof.
  induction k as [| k IH]; [done |]. cbn [zeros].
  rewrite append_cons, append_nil_l, append_cons. cbn [dec_val]. exact IH.
Qed.

Lemma zero_padded_inj (w : nat) (n1 n2 : Z) :
  (0 ≤ n1)%Z → (0 ≤ n2)%Z → zero_padded w n1 = zero_padded w n2 → n1 = n2.
Proof.
  intros H1 H2 Heq. apply (f_equal (dec_val 0)) in Heq.
  unfold zero_padded, str_int in Heq. rewrite !dec_val_zeros in Heq.
  destruct (pretty_Z_digits n1 H1) as [_ Hv1].
  destruct (pretty_Z_digits n2 H2) as [_ Hv2].
  rewrite Hv1, Hv2 in Heq. lia.
Qed.

Lemma append_inj_length (a1 a2 r1 r2 : string) :
  String.length a1 = String.length a2 →
  a1 +:+ r1 = a2 +:+ r2 → a1 = a2 ∧ r1 = r2.
Proof.
  revert a2. induction a1 as [| c a1 IH]; intros [| c' a2] Hlen Heq;
    try done.
  rewrite !append_cons in Heq. injection Heq as -> Heq.
  injection Hlen as Hlen. destruct (IH a2 Hlen Heq) as [-> ->]. done.
Qed.

(** [str] tells valid dates apart. *)
Lemma str_date_inj (d1 d2 : date) :
  valid_date d1 → valid_date d2 → str_date d1 = str_date d2 → d1 = d2.
Proof.
  intros (Hy1 & Hm1 & Hd1) (Hy2 & Hm2 & Hd2) Heq.
  unfold str_date in Heq.
  apply append_inj_length in Heq as [Hy Heq];
    [| rewrite !zero_padded_length; cbn; lia].
  apply (inj (String.append _)) in Heq.
  apply append_inj_length in Heq as [Hm Heq];
    [| rewrite !zero_padded_length; cbn; lia].
  apply (inj (String.append _)) in Heq.
  apply zero_padded_inj in Hy; [| lia..].
  apply zero_padded_inj in Hm; [| lia..].
  apply zero_padded_inj in Heq; [| lia..].
  destruct d1, d2. cbn in *. by subst.
Qed.

Lemma insert_by_date_perm (p : date * nat) l : insert_by_date p l ≡ₚ p :: l.
Proof.
  induction l as [| p' l IH]; [done |]. cbn [insert_by_date].
  destruct (date_ltb p.1 p'.1); [done |]. rewrite IH. apply Permutation_swap.
Qed.

Lemma sort_by_date_perm (l acc : list (date * nat)) :
  foldl (λ acc p, insert_by_date p acc) acc l ≡ₚ l ++ acc.
Proof.
  revert acc. induction l as [| p l IH]; intros acc; [done |].
  cbn [foldl]. rewrite IH, insert_by_date_perm.
  symmetry. apply Permutation_middle.
Qed.

Lemma groupby_size_perm (dates : list date) :
  groupby_size dates ≡ₚ tally dates.
Proof. unfold groupby_size. by rewrite sort_by_date_perm, app_nil_r. Qed.

Lemma groupby_size_NoDup (dates : list date) : NoDup (groupby_size dates).*1.
Proof. rewrite groupby_size_perm. apply tally_NoDup. Qed.

(** The groups of [groupby_size]: each date of the column with its number
    of rows. *)
Lemma groupby_size_elem_of (dates : list date) d n :
  (d, n) ∈ groupby_size dates ↔ d ∈ dates ∧ n = occurrences d dates.
Proof.
  rewrite groupby_size_perm.
  rewrite (elem_of_list_to_map (M := gmap date)) by apply tally_NoDup.
  rewrite tally_lookup. case_decide; naive_solver.
Qed.

Lemma dict_by_str_date_snoc items p :
  dict_by_str_date (items ++ [p])
  = <[str_date p.1 := p.2]> (dict_by_str_date items).
Proof. unfold dict_by_str_date. by rewrite foldl_app. Qed.

Lemma dict_by_str_date_keys items k n :
  dict_by_str_date items !! k = Some n →
  ∃ p, p ∈ items ∧ k = str_date p.1.
Proof.
  induction items as [| p items IH] using rev_ind; [done |].
  rewrite dict_by_str_date_snoc.
  destruct (decide (str_date p.1 = k)) as [<- | Hne].
  - intros _. exists p. split; [| done]. apply elem_of_app. right. left.
  - rewrite lookup_insert_ne by done. intros (q & Hq & ->)%IH.
    exists q. split; [| done]. apply elem_of_app. by left.
Qed.

Lemma dict_by_str_date_lookup items d n :
  (∀ p, p ∈ items → valid_date p.1) → NoDup items.*1 →
  (d, n) ∈ items → dict_by_str_date items !! str_date d = Some n.
Proof.
  induction items as [| p items IH] using rev_ind;
    intros Hvalid Hnd Hin; [by apply elem_of_nil in Hin |].
  rewrite dict_by_str_date_snoc.
  rewrite fmap_app in Hnd. apply NoDup_app in Hnd as (Hnd & Hdisj & _).
  apply elem_of_app in Hin as [Hin | Hin].
  - rewrite lookup_insert_ne.
    + apply IH; [| done | done].
      intros q Hq. apply Hvalid, elem_of_app. by left.
    + intros Heq. apply str_date_inj in Heq.
      * apply (Hdisj d).
        -- apply list_elem_of_fmap. by exists (d, n).
        -- rewrite <- Heq. cbn. left.
      * apply Hvalid, elem_of_app. right. left.
      * apply (Hvalid (d, n)), elem_of_app. by left.
  - apply list_elem_of_singleton in Hin as <-. cbn. apply lookup_insert_eq.
Qed.

(** X9: for a table with at least one row, all with valid dates,
    [daily_attendance] maps the ISO form of every date of the table to the
    number of rows created on that date, and has no other key. *)
Theorem daily_attendance_counts employees :
  employees ≠ [] →
  (∀ r, r ∈ employees → valid_date (date_of (time_posted r))) →
  let dates := (λ r, date_of (time_posted r)) <$> employees in
  ∃ m, field "daily_attendance" (data (DataAnalysisView_get employees))
       = Some (JCounts m)
       ∧ (∀ d, d ∈ dates → m !! str_date d = Some (occurrences d dates))
       ∧ (∀ k n, m !! k = Some n →
            ∃ d, d ∈ dates ∧ k = str_date d ∧ n = occurrences d dates).
Proof.
  intros Hne Hvalid dates. destruct employees as [| e l]; [done |].
  exists (dict_by_str_date (groupby_size dates)).
  assert (∀ p, p ∈ groupby_size dates → valid_date p.1) as Hv.
  { intros [d n] [Hd _]%groupby_size_elem_of.
    apply list_elem_of_fmap in Hd as (r & -> & Hr). by apply Hvalid. }
  split; [reflexivity |]. split.
  - intros d Hd. apply dict_by_str_date_lookup;
      [done | apply groupby_size_NoDup |].
    by apply groupby_size_elem_of.
  - intros k n Hk.
    destruct (dict_by_str_date_keys _ _ _ Hk) as ([d n'] & Hp & ->).
    apply groupby_size_elem_of in Hp as Hp'. destruct Hp' as [Hd ->].
    exists d. split; [done |]. split; [done |].
    pose proof (dict_by_str_date_lookup _ d (occurrences d dates) Hv
                  (groupby_size_NoDup dates) Hp) as Hl.
    assert (Some n = Some (occurrences d dates)) as Heq.
    { rewrite <- Hk. exact Hl. }
    by injection Heq.
Qed.

Lemma daily_attendance_counts_witness :
  let dates := (λ r, date_of (time_posted r)) <$> three_rows in
  ∃ m, field "daily_attendance" (data (DataAnalysisView_get three_rows))
       = Some (JCounts m)
       ∧ (∀ d, d ∈ dates → m !! str_date d = Some (occurrences d dates))
       ∧ (∀ k n, m !! k = Some n →
            ∃ d, d ∈ dates ∧ k = str_date d ∧ n = occurrences d dates).
Proof.
  apply (daily_attendance_counts three_rows).
  - discriminate.
  - intros r Hr. unfold three_rows in Hr.
    repeat (apply elem_of_cons in Hr as [-> | Hr];
            [unfold valid_date; cbn; lia |]).
    by apply elem_of_nil in Hr.
Defined.

(** X10: when a request of a chart endpoint misses the cache and draws
    bytes that are not empty, it returns them, and a second request whose
    look-up falls in the bucket of the first one's store returns the same
    bytes and leaves the directory as it is, whatever the backend and the
    table have become: it is served from the cache. *)
Theorem second_request_served_from_cache ep B B' now_get now_save
    now_get' now_save' employees employees' (fs : dir) cached chart_data :
  ep ∈ urlpatterns →
  (get_cached_chart now_get (chart_type ep) 60 fs).1 = Ok cached →
  truthy cached = false →
  run_plot (figure_of ep B employees) = Ok chart_data →
  chart_data ≠ [] →
  bucket now_get' 60 = bucket now_save 60 →
  let first := view ep B now_get now_save employees fs in
  first.1 = Ok (HttpResponse_ chart_data "image/png")
  ∧ view ep B' now_get' now_save' employees' first.2
    = (Ok (HttpResponse_ chart_data "image/png"), first.2).
Proof.
  intros Hin Hget Hmiss Hdraw Hne Hsame first. subst first.
  rewrite !(view_shape ep _ _ _ _ Hin), Hdraw.
  rewrite (shape_render_ok B now_get now_save (chart_type ep)
             (error_text ep) fs cached Hget Hmiss chart_data).
  cbn [fst snd]. split; [done |].
  destruct (cache_key_60 now_save (chart_type ep)) as [key Hkey].
  destruct (save_cached_chart_spec now_save (chart_type ep) chart_data 60
              fs key Hkey) as (fs' & -> & Hfs').
  cbn [snd].
  assert (cache_key now_get' (chart_type ep) 60 = Ok key) as Hkey'.
  { unfold cache_key in *. by rewrite Hsame. }
  assert ((get_cached_chart now_get' (chart_type ep) 60 fs').1
          = Ok (Some chart_data)) as Hhit.
  { rewrite (get_cached_chart_spec _ _ _ _ key Hkey'), Hfs'.
    by rewrite decide_True. }
  apply (shape_hit B' now_get' now_save' (chart_type ep) (error_text ep)
           _ fs' (Some chart_data) Hhit).
  by destruct chart_data.
Qed.

Lemma second_request_served_from_cache_witness :
  let first := view roles_route plain_backend (at_second 1700000040)
                 (at_second 1700000041) (Ok three_rows) ∅ in
  first.1 = Ok (HttpResponse_
                  [x89; x50; x4e; x47; x2e; x2e; x2e; x2e; x2e] "image/png")
  ∧ view roles_route broken_pie (at_second 1700000099)
      (at_second 1700000100) (Ok []) first.2
    = (Ok (HttpResponse_
             [x89; x50; x4e; x47; x2e; x2e; x2e; x2e; x2e] "image/png"),
       first.2).
Proof.
  apply (second_request_served_from_cache roles_route plain_backend
           broken_pie (at_second 1700000040) (at_second 1700000041)
           (at_second 1700000099) (at_second 1700000100)
           (Ok three_rows) (Ok []) ∅ None).
  - apply list_elem_of_further, list_elem_of_further, list_elem_of_here.
  - vm_compute. reflexivity.
  - reflexivity.
  - vm_compute. reflexivity.
  - discriminate.
  - vm_compute. reflexivity.
Defined.

(** X11: as long as the error image can be drawn, every request of each
    of the five chart endpoints returns a response of status 200 and
    content type image/png, and leaves the directory either as it was or as
    the store of the very bytes it returns. *)
Theorem every_request_answers_png ep B now_get now_save employees
    (fs : dir) :
  ep ∈ urlpatterns →
  (∀ text, ∃ png, run_plot (error_image B text) = Ok png) →
  ∃ response fs',
    view ep B now_get now_save employees fs = (Ok response, fs')
    ∧ status_code response = 200
    ∧ content_type response = "image/png"
    ∧ (fs' = fs
       ∨ fs' = (save_cached_chart now_save (chart_type ep)
                  (content response) 60 fs).2).
Proof.
  intros Hin Herr.
  destruct (get_cached_chart_60 now_get (chart_type ep) fs) as [cached Hc].
  assert ((get_cached_chart now_get (chart_type ep) 60 fs).1 = Ok cached)
    as Hget by (by rewrite Hc).
  rewrite (view_shape ep B now_get now_save employees Hin).
  destruct (truthy cached) eqn:Hmiss.
  { rewrite (shape_hit _ _ _ _ _ _ _ cached Hget Hmiss).
    eexists _, _. split; [done |]. by repeat split; [left]. }
  destruct (run_plot (figure_of ep B employees)) as [chart_data | e].
  - rewrite (shape_render_ok B now_get now_save (chart_type ep)
               (error_text ep) fs cached Hget Hmiss).
    eexists _, _. split; [done |]. repeat split. by right.
  - destruct (Herr (error_text ep e)) as [png Hpng].
    rewrite (shape_render_raises B now_get now_save (chart_type ep)
               (error_text ep) fs cached Hget Hmiss e png Hpng).
    eexists _, _. split; [done |]. repeat split. by left.
Qed.

Lemma every_request_answers_png_witness :
  ∃ response fs',
    view attendance_route broken_bar (at_second 1700000040)
      (at_second 1700000041) (Ok three_rows) stale_departments
    = (Ok response, fs')
    ∧ status_code response = 200
    ∧ content_type response = "image/png"
    ∧ (fs' = stale_departments
       ∨ fs' = (save_cached_chart (at_second 1700000041) "attendance"
                  (content response) 60 stale_departments).2).
Proof.
  apply (every_request_answers_png attendance_route broken_bar).
  - do 3 apply list_elem_of_further. apply list_elem_of_here.
  - intros text. eexists. reflexivity.
Defined.

Lemma tally_nil {A} `{EqDecision A} (l : list A) : tally l = [] → l = [].
Proof.
  intros Ht. apply (f_equal (λ t, sum_list t.*2)) in Ht.
  rewrite tally_sum in Ht. cbn in Ht. by destruct l.
Qed.

Lemma value_counts_nil (series : list string) :
  value_counts series = [] → series = [].
Proof.
  intros Hv. apply tally_nil. apply Permutation_nil.
  by rewrite <- value_counts_perm, Hv.
Qed.

Ltac elem_of_literal :=
  repeat first [apply list_elem_of_here | apply list_elem_of_further].

(** Runs a drawing block on a backend that never raises. *)
Ltac run_plain Hnever :=
  repeat first
    [ rewrite Hnever
    | rewrite bool_decide_eq_true_2 by elem_of_literal
    | progress cbn [app negb andb fst snd for_each]
    | progress cbv beta iota zeta ].

(** X12: on a backend that does not raise and a table with at least one
    row, the department chart and the role chart are a pie of the value
    counts of their column with a title and a legend of the labels (the
    "No department data" and "No role data" branches are not taken), and
    the counts drawn are the mapping the analysis returns for that
    distribution. *)
Theorem pie_charts_draw_the_distribution B employees :
  never_raises B → employees ≠ [] →
  let dept_counts := value_counts (department <$> employees) in
  let role_counts := value_counts (role <$> employees) in
  run_plot (department_figure B (Ok employees))
  = encode B chart_opts
      [Call None "figure" [Num 10; Num 8];
       Call None "pie" [Counts dept_counts];
       Call None "title" [Str "Department Distribution"];
       Call None "legend" [Labels dept_counts.*1];
       Call None "tight_layout" []]
  ∧ run_plot (role_figure B (Ok employees))
    = encode B chart_opts
        [Call None "figure" [Num 10; Num 8];
         Call None "pie" [Counts role_counts];
         Call None "title" [Str "Role Distribution"];
         Call None "legend" [Labels role_counts.*1];
         Call None "tight_layout" []]
  ∧ field "department_distribution" (data (DataAnalysisView_get employees))
    = Some (JCounts (to_dict dept_counts))
  ∧ field "role_distribution" (data (DataAnalysisView_get employees))
    = Some (JCounts (to_dict role_counts)).
Proof.
  intros Hnever Hne dept_counts role_counts.
  destruct employees as [| e l]; [done |].
  assert (is_nil dept_counts = false) as Hd.
  { destruct dept_counts eqn:E; [| done].
    by apply value_counts_nil in E. }
  assert (is_nil role_counts = false) as Hr.
  { destruct role_counts eqn:E; [| done].
    by apply value_counts_nil in E. }
  split; [| split; [| split; reflexivity]].
  - unfold run_plot, department_figure, bind, lift, new_figure, plt, draw,
      savefig, plt_close, ret.
    cbn [df_empty df_rows columns negb andb].
    fold dept_counts. run_plain Hnever. rewrite Hd. run_plain Hnever.
    by destruct (encode B chart_opts _).
  - unfold run_plot, role_figure, bind, lift, new_figure, plt, draw,
      savefig, plt_close, ret.
    cbn [df_empty df_rows columns negb andb].
    fold role_counts. run_plain Hnever. rewrite Hr. run_plain Hnever.
    by destruct (encode B chart_opts _).
Qed.

Lemma pie_charts_draw_the_distribution_witness :
  let dept_counts := value_counts (department <$> three_rows) in
  let role_counts := value_counts (role <$> three_rows) in
  run_plot (department_figure plain_backend (Ok three_rows))
  = encode plain_backend chart_opts
      [Call None "figure" [Num 10; Num 8];
       Call None "pie" [Counts dept_counts];
       Call None "title" [Str "Department Distribution"];
       Call None "legend" [Labels dept_counts.*1];
       Call None "tight_layout" []]
  ∧ run_plot (role_figure plain_backend (Ok three_rows))
    = encode plain_backend chart_opts
        [Call None "figure" [Num 10; Num 8];
         Call None "pie" [Counts role_counts];
         Call None "title" [Str "Role Distribution"];
         Call None "legend" [Labels role_counts.*1];
         Call None "tight_layout" []]
  ∧ field "department_distribution" (data (DataAnalysisView_get three_rows))
    = Some (JCounts (to_dict dept_counts))
  ∧ field "role_distribution" (data (DataAnalysisView_get three_rows))
    = Some (JCounts (to_dict role_counts)).
Proof.
  apply (pie_charts_draw_the_distribution plain_backend three_rows).
  - intros fig c. reflexivity.
  - discriminate.
Defined.

(** *** The order of dates *)

Lemma date_ltb_trans (a b c : date) :
  date_ltb a b = true → date_ltb b c = true → date_ltb a c = true.
Proof.
  destruct a as [y1 m1 d1], b as [y2 m2 d2], c as [y3 m3 d3].
  unfold date_ltb. cbn.
  rewrite !orb_true_iff, !andb_true_iff, !orb_true_iff, !andb_true_iff.
  rewrite !Z.ltb_lt, !Z.eqb_eq. lia.
Qed.

Lemma date_ltb_total (a b : date) :
  date_ltb a b = false → a ≠ b → date_ltb b a = true.
Proof.
  destruct a as [y1 m1 d1], b as [y2 m2 d2]. intros Hlt Hne.
  assert (¬ (y1 = y2 ∧ m1 = m2 ∧ d1 = d2)) as Hne'.
  { intros (-> & -> & ->). by apply Hne. }
  apply not_true_iff_false in Hlt. revert Hlt.
  unfold date_ltb. cbn.
  rewrite !orb_true_iff, !andb_true_iff, !orb_true_iff, !andb_true_iff.
  rewrite !Z.ltb_lt, !Z.eqb_eq. lia.
Qed.

Lemma insert_by_date_sorted (p : date * nat) l :
  StronglySorted earlier l → p.1 ∉ l.*1 →
  StronglySorted earlier (insert_by_date p l).
Proof.
  induction l as [| p' l IH]; intros Hs Hp.
  - repeat constructor.
  - apply StronglySorted_inv in Hs as [Hs Hall].
    apply not_elem_of_cons in Hp as [Hne Hp].
    cbn [insert_by_date]. destruct (date_ltb p.1 p'.1) eqn:Hlt.
    + constructor; [by constructor |]. constructor; [done |].
      eapply Forall_impl; [exact Hall |]. intros q Hq.
      unfold earlier in *. by eapply date_ltb_trans.
    + constructor; [by apply IH |].
      rewrite insert_by_date_perm. constructor; [| done].
      unfold earlier. by apply date_ltb_total.
Qed.

Lemma sort_by_date_sorted (l acc : list (date * nat)) :
  StronglySorted earlier acc → NoDup ((l ++ acc)%list).*1 →
  StronglySorted earlier (foldl (λ acc p, insert_by_date p acc) acc l).
Proof.
  revert acc. induction l as [| p l IH]; intros acc Hs Hnd; [done |].
  cbn [foldl]. cbn in Hnd. apply NoDup_cons in Hnd as [Hp Hnd].
  rewrite fmap_app in Hp, Hnd. apply IH.
  - apply insert_by_date_sorted; [done |].
    intros Hin. apply Hp, elem_of_app. by right.
  - rewrite fmap_app, insert_by_date_perm. cbn.
    rewrite <- Permutation_middle. apply NoDup_cons. split; [| done].
    exact Hp.
Qed.

Lemma groupby_size_sorted (dates : list date) :
  StronglySorted earlier (groupby_size dates).
Proof.
  unfold groupby_size. apply sort_by_date_sorted; [constructor |].
  rewrite app_nil_r. apply tally_NoDup.
Qed.

(** X13: the bars of the attendance chart are the last ten groups, or all
    of them when there are fewer, of the dates in increasing order: every
    group left out is earlier than every group kept, and each group kept is
    a date of the table with its number of rows. *)
Theorem recent_days_are_the_latest (dates : list date) :
  ∃ older kept,
    groupby_size dates = (older ++ kept)%list
    ∧ recent_days (groupby_size dates)
      = (λ p, (str_date p.1, p.2)) <$> kept
    ∧ length kept = Nat.min 10 (length (groupby_size dates))
    ∧ StronglySorted earlier kept
    ∧ (∀ p q, p ∈ older → q ∈ kept → earlier p q)
    ∧ (∀ q, q ∈ kept → q.1 ∈ dates ∧ q.2 = occurrences q.1 dates).
Proof.
  pose proof (groupby_size_sorted dates) as Hs.
  set (all := groupby_size dates) in *.
  exists (take (length all - 10) all), (drop (length all - 10) all).
  assert (all = (take (length all - 10) all
                 ++ drop (length all - 10) all)%list) as Hsplit
    by (by rewrite take_drop).
  split; [done |]. split; [| split; [| split; [| split]]].
  - unfold recent_days, tail.
    destruct (10 <? length all)%nat eqn:Hlen; [done |].
    apply Nat.ltb_ge in Hlen.
    by replace (length all - 10)%nat with 0%nat by lia.
  - rewrite length_drop. lia.
  - rewrite Hsplit in Hs. by apply StronglySorted_app_1_r in Hs.
  - intros p q Hp Hq. rewrite Hsplit in Hs.
    by apply (StronglySorted_app_1_elem_of earlier _ _ p q Hs).
  - intros [d n] Hq. apply groupby_size_elem_of. fold all.
    rewrite Hsplit. apply elem_of_app. by right.
Qed.

Lemma for_each_plt B name (f : string * nat → list arg)
    (l : list (string * nat)) (fig : figure) :
  never_raises B →
  for_each l (λ x, plt B name (f x)) fig
  = (Ok tt, (fig ++ ((λ x, Call None name (f x)) <$> l))%list).
Proof.
  intros Hnever. revert fig. induction l as [| x l IH]; intros fig.
  - cbn. by rewrite app_nil_r.
  - cbn [for_each]. unfold bind at 1, plt at 1, draw. rewrite Hnever.
    rewrite IH. cbn. by rewrite <- app_assoc.
Qed.

(** X14: on a backend that does not raise and a table with at least one
    row, the attendance chart is the bar chart of the recent days with its
    title, axis labels and ticks, followed by one text label per bar giving
    its count; there are at most ten bars. *)
Theorem attendance_chart_bars B employees :
  never_raises B → employees ≠ [] →
  let days :=
    recent_days (groupby_size
                   ((λ r, date_of (time_posted r)) <$> employees)) in
  run_plot (attendance_figure B (Ok employees))
  = encode B chart_opts
      ([Call None "figure" [Num 12; Num 8];
        Call None "bar" [Counts days];
        Call None "title" [Str "Daily Attendance (Recent Days)"];
        Call None "xlabel" [Str "Date"];
        Call None "ylabel" [Str "Count"];
        Call None "xticks" [Num 45];
        Call None "yticks" []]
       ++ ((λ bar, Call None "text" [Str (str_int (Z.of_nat bar.2))])
             <$> days)
       ++ [Call None "tight_layout" []])%list
  ∧ (length days ≤ 10)%nat.
Proof.
  intros Hnever Hne days. destruct employees as [| e l]; [done |]. split.
  - unfold run_plot, attendance_figure, bind at 1, lift.
    unfold bind at 1, new_figure. rewrite Hnever.
    unfold bind at 1.
    cbn [df_empty df_rows columns negb andb].
    rewrite bool_decide_eq_true_2 by elem_of_literal.
    unfold try_except, dates_of. cbn [df_rows]. fold days.
    unfold bind at 1, plt at 1, draw. rewrite Hnever. cbn [app].
    unfold bind at 1, plt at 1, draw. rewrite Hnever. cbn [app].
    unfold bind at 1, plt at 1, draw. rewrite Hnever. cbn [app].
    unfold bind at 1, plt at 1, draw. rewrite Hnever. cbn [app].
    unfold bind at 1, plt at 1, draw. rewrite Hnever. cbn [app].
    unfold bind at 1, plt at 1, draw. rewrite Hnever. cbn [app].
    rewrite (for_each_plt B "text"
               (λ bar, [Str (str_int (Z.of_nat bar.2))]) days _ Hnever).
    unfold bind at 1, plt at 1, draw. rewrite Hnever.
    unfold bind, savefig, plt_close, ret. cbn [fst].
    rewrite <- app_assoc.
    by destruct (encode B chart_opts _).
  - subst days. unfold recent_days, tail. rewrite length_fmap.
    destruct (10 <? _)%nat eqn:Hlen.
    + rewrite length_drop. lia.
    + apply Nat.ltb_ge in Hlen. lia.
Qed.

Lemma attendance_chart_bars_witness :
  let days :=
    recent_days (groupby_size
                   ((λ r, date_of (time_posted r)) <$> three_rows)) in
  run_plot (attendance_figure plain_backend (Ok three_rows))
  = encode plain_backend chart_opts
      ([Call None "figure" [Num 12; Num 8];
        Call None "bar" [Counts days];
        Call None "title" [Str "Daily Attendance (Recent Days)"];
        Call None "xlabel" [Str "Date"];
        Call None "ylabel" [Str "Count"];
        Call None "xticks" [Num 45];
        Call None "yticks" []]
       ++ ((λ bar, Call None "text" [Str (str_int (Z.of_nat bar.2))])
             <$> days)
       ++ [Call None "tight_layout" []])%list
  ∧ (length days ≤ 10)%nat.
Proof.
  apply (attendance_chart_bars plain_backend three_rows).
  - intros fig c. reflexivity.
  - discriminate.
Defined.

(** X15: on an empty table and a backend that does not raise, no pie and
    no bar is drawn: each single chart is its "no data" text, and the
    combined chart has one such text per panel. *)
Theorem empty_table_placeholders B :
  never_raises B →
  run_plot (department_figure B (Ok []))
  = encode B chart_opts
      [Call None "figure" [Num 10; Num 8];
       Call None "text" [Str "No data available"];
       Call None "tight_layout" []]
  ∧ run_plot (role_figure B (Ok []))
    = encode B chart_opts
        [Call None "figure" [Num 10; Num 8];
         Call None "text" [Str "No data available"];
         Call None "tight_layout" []]
  ∧ run_plot (attendance_figure B (Ok []))
    = encode B chart_opts
        [Call None "figure" [Num 12; Num 8];
         Call None "text" [Str "No attendance data"];
         Call None "tight_layout" []]
  ∧ run_plot (signature_figure B (Ok []))
    = encode B chart_opts
        [Call None "figure" [Num 10; Num 8];
         Call None "text" [Str "No signature data"];
         Call None "tight_layout" []]
  ∧ run_plot (combined_figure B (Ok []))
    = encode B chart_opts
        [Call None "subplots" [Num 2; Num 2; Num 15; Num 12];
         Call (Some (0, 0)) "text" [Str "No data available"];
         Call (Some (0, 1)) "text" [Str "No data available"];
         Call (Some (1, 0)) "text" [Str "No attendance data"];
         Call (Some (1, 1)) "text" [Str "No signature data"];
         Call None "tight_layout" []].
Proof.
  intros Hnever.
  repeat split;
    unfold run_plot, department_figure, role_figure, attendance_figure,
      signature_figure, combined_figure, bind, lift, new_figure, plt, axs,
      draw, savefig, plt_close, ret;
    cbn [df_empty df_rows columns negb andb];
    run_plain Hnever;
    by destruct (encode B chart_opts _).
Qed.

Lemma empty_table_placeholders_witness :
  run_plot (department_figure plain_backend (Ok []))
  = Ok [x89; x50; x4e; x47; x2e; x2e; x2e].
Proof.
  refine (proj1 (empty_table_placeholders plain_backend _)).
  intros fig c. reflexivity.
Defined.

(** X16: when the query of the employees raises, nothing is drawn and the
    exception reaches the outer handler of the endpoint: on a miss, and as
    long as the error image can be drawn, the response is the error image
    with status 200 and the directory is left as it was. *)
Theorem query_failure_gives_error_png ep B now_get now_save (fs : dir)
    cached e png :
  ep ∈ urlpatterns →
  (get_cached_chart now_get (chart_type ep) 60 fs).1 = Ok cached →
  truthy cached = false →
  run_plot (error_image B (error_text ep e)) = Ok png →
  run_plot (figure_of ep B (Raise e)) = Raise e
  ∧ view ep B now_get now_save (Raise e) fs
    = (Ok (HttpResponse_ png "image/png"), fs).
Proof.
  intros Hin Hget Hmiss Hpng.
  assert (run_plot (figure_of ep B (Raise e)) = Raise e) as Hraise.
  { unfold urlpatterns in Hin.
    repeat (apply elem_of_cons in Hin as [-> | Hin]; [reflexivity |]).
    by apply elem_of_nil in Hin. }
  split; [done |].
  rewrite (view_shape ep B now_get now_save _ Hin), Hraise.
  by apply (shape_render_raises B now_get now_save (chart_type ep)
              (error_text ep) fs cached Hget Hmiss).
Qed.

Lemma query_failure_gives_error_png_witness :
  run_plot (figure_of visualization_route plain_backend
              (Raise database_down)) = Raise database_down
  ∧ view visualization_route plain_backend (at_second 1700000040)
      (at_second 1700000041) (Raise database_down) stale_departments
    = (Ok (HttpResponse_ [x89; x50; x4e; x47; x2e; x2e; x2e] "image/png"),
       stale_departments).
Proof.
  apply (query_failure_gives_error_png visualization_route plain_backend
           (at_second 1700000040) (at_second 1700000041) stale_departments
           None database_down).
  - apply list_elem_of_here.
  - vm_compute. reflexivity.
  - reflexivity.
  - vm_compute. reflexivity.
Defined.

(** X17: when drawing the bars raises and no other call does, the inner
    handler of the attendance chart catches the exception: the figure is
    the text "Error: " followed by [str(e)], the endpoint returns its
    encoding as a chart and stores it, and a look-up in the bucket of that
    store returns it. *)
Theorem inner_handler_error_is_cached B now_get now_save employees
    (fs : dir) cached e data :
  raises_only_on B "bar" e → employees ≠ [] →
  (get_cached_chart now_get "attendance" 60 fs).1 = Ok cached →
  truthy cached = false →
  encode B chart_opts
    [Call None "figure" [Num 12; Num 8];
     Call None "text" [Str ("Error: " +:+ str_exn e)];
     Call None "tight_layout" []] = Ok data →
  run_plot (attendance_figure B (Ok employees)) = Ok data
  ∧ attendance_chart B now_get now_save (Ok employees) fs
    = (Ok (HttpResponse_ data "image/png"),
       (save_cached_chart now_save "attendance" data 60 fs).2)
  ∧ ∀ now, bucket now 60 = bucket now_save 60 →
      (get_cached_chart now "attendance" 60
         (save_cached_chart now_save "attendance" data 60 fs).2).1
      = Ok (Some data).
Proof.
  intros Hraises Hne Hget Hmiss Henc.
  destruct employees as [| r l]; [done |].
  assert (run_plot (attendance_figure B (Ok (r :: l))) = Ok data) as Hdraw.
  { unfold run_plot, attendance_figure, bind at 1, lift.
    unfold bind at 1, new_figure. rewrite Hraises. cbn [name].
    rewrite decide_False by done.
    unfold bind at 1.
    cbn [df_empty df_rows columns negb andb].
    rewrite bool_decide_eq_true_2 by elem_of_literal.
    unfold try_except.
    unfold bind at 1, plt at 1, draw. rewrite Hraises. cbn [name].
    rewrite decide_True by done.
    unfold plt at 1, draw. rewrite Hraises. cbn [name].
    rewrite decide_False by done.
    unfold bind at 1, plt at 1, draw. rewrite Hraises. cbn [name].
    rewrite decide_False by done.
    unfold bind, savefig, plt_close, ret. cbn [app fst].
    by rewrite Henc. }
  split; [done |]. split.
  - change (attendance_chart B now_get now_save (Ok (r :: l)))
      with (endpoint_shape "attendance"
              (run_plot (attendance_figure B (Ok (r :: l))))
              chart_error B now_get now_save).
    rewrite Hdraw.
    by apply (shape_render_ok B now_get now_save "attendance" chart_error
                fs cached Hget Hmiss).
  - intros now Hsame.
    destruct (cache_key_60 now_save "attendance") as [key Hkey].
    destruct (save_cached_chart_spec now_save "attendance" data 60 fs key
                Hkey) as (fs' & -> & Hfs').
    assert (cache_key now "attendance" 60 = Ok key) as Hkey'.
    { unfold cache_key in *. by rewrite Hsame. }
    cbn [snd]. rewrite (get_cached_chart_spec _ _ _ _ key Hkey'), Hfs'.
    by rewrite decide_True.
Qed.

Lemma inner_handler_error_is_cached_witness :
  run_plot (attendance_figure broken_bar (Ok three_rows))
  = Ok [x89; x50; x4e; x47; x2e; x2e; x2e]
  ∧ attendance_chart broken_bar (at_second 1700000040)
      (at_second 1700000041) (Ok three_rows) ∅
    = (Ok (HttpResponse_ [x89; x50; x4e; x47; x2e; x2e; x2e] "image/png"),
       (save_cached_chart (at_second 1700000041) "attendance"
          [x89; x50; x4e; x47; x2e; x2e; x2e] 60 ∅).2)
  ∧ ∀ now, bucket now 60 = bucket (at_second 1700000041) 60 →
      (get_cached_chart now "attendance" 60
         (save_cached_chart (at_second 1700000041) "attendance"
            [x89; x50; x4e; x47; x2e; x2e; x2e] 60 ∅).2).1
      = Ok (Some [x89; x50; x4e; x47; x2e; x2e; x2e]).
Proof.
  apply (inner_handler_error_is_cached broken_bar (at_second 1700000040)
           (at_second 1700000041) three_rows ∅ None
           (PyErr "TypeError" "unhashable type")).
  - intros fig c. reflexivity.
  - discriminate.
  - vm_compute. reflexivity.
  - reflexivity.
  - vm_compute. reflexivity.
Defined.

(** X18: an empty file under the current key counts as a miss: the
    look-up returns its empty bytes, and the endpoint draws the chart,
    returns it and stores it over the empty file. *)
Theorem empty_cached_file_is_redrawn ep B now_get now_save employees
    (fs : dir) (b : Z) chart_data :
  ep ∈ urlpatterns →
  bucket now_get 60 = Ok b →
  entry fs (chart_type ep) b = Some [] →
  run_plot (figure_of ep B employees) = Ok chart_data →
  get_cached_chart now_get (chart_type ep) 60 fs = (Ok (Some []), fs)
  ∧ view ep B now_get now_save employees fs
    = (Ok (HttpResponse_ chart_data "image/png"),
       (save_cached_chart now_save (chart_type ep) chart_data 60 fs).2).
Proof.
  intros Hin Hb Hempty Hdraw.
  destruct (cache_key_entry_name now_get (chart_type ep) 60 b Hb)
    as (key & Hkey & Hname).
  assert (get_cached_chart now_get (chart_type ep) 60 fs
          = (Ok (Some []), fs)) as Hget.
  { rewrite (get_cached_chart_spec _ _ _ _ key Hkey), Hname.
    unfold entry in Hempty. by rewrite Hempty. }
  split; [done |].
  rewrite (view_shape ep B now_get now_save employees Hin), Hdraw.
  apply (shape_render_ok B now_get now_save (chart_type ep) (error_text ep)
           fs (Some [])); [by rewrite Hget | done].
Qed.

Lemma empty_cached_file_is_redrawn_witness :
  get_cached_chart (at_second 1700000040) "roles" 60 empty_roles_file
  = (Ok (Some []), empty_roles_file)
  ∧ view roles_route plain_backend (at_second 1700000040)
      (at_second 1700000041) (Ok three_rows) empty_roles_file
    = (Ok (HttpResponse_
             [x89; x50; x4e; x47; x2e; x2e; x2e; x2e; x2e] "image/png"),
       (save_cached_chart (at_second 1700000041) "roles"
          [x89; x50; x4e; x47; x2e; x2e; x2e; x2e; x2e] 60
          empty_roles_file).2).
Proof.
  apply (empty_cached_file_is_redrawn roles_route plain_backend
           (at_second 1700000040) (at_second 1700000041) (Ok three_rows)
           empty_roles_file 28333334).
  - apply list_elem_of_further, list_elem_of_further, list_elem_of_here.
  - vm_compute. reflexivity.
  - vm_compute. reflexivity.
  - vm_compute. reflexivity.
Defined.
